(** * RAG backend: query routing and multi-stage answer pipeline

    A shallow embedding of [backend/rag_engine.py] (class [RAGBackend]):
    start-up ([__init__] and the four loaders it runs), the LCEL chain built
    by [_build_chain_architecture], the entry point [get_response] with its
    normaliser, and the knowledge-scope loader, formatter and reloader.

    Python values are modelled dynamically where the code is dynamic (the
    JSON read from [knowledge_scope.json], the raw output of a strategy);
    collaborators (the two chat models, the re-ranking retriever) are
    oracles whose invocations are recorded in a trace. *)

From Stdlib Require Import List ZArith NArith Bool Ascii String Lia.
From Stdlib Require Decimal DecimalNat DecimalString.
Import ListNotations.

Set Implicit Arguments.
Set Warnings "-register-all".

(** ** Python strings *)

(** A [str] is a sequence of Unicode code points. *)
Definition char := N.
Definition str := list char.

Definition cont (a : ascii) : N := (N_of_ascii a mod 64)%N.

(** Literals are written as UTF-8 byte strings and decoded here. *)
Fixpoint utf8 (s : string) : str :=
  match s with
  | EmptyString => []
  | String a r =>
      let b := N_of_ascii a in
      if (b <? 0x80)%N then b :: utf8 r
      else if (b <? 0xE0)%N then
        match r with
        | String a1 r1 => ((b mod 32) * 64 + cont a1)%N :: utf8 r1
        | _ => [0xFFFD%N]
        end
      else if (b <? 0xF0)%N then
        match r with
        | String a1 (String a2 r2) =>
            ((b mod 16) * 4096 + cont a1 * 64 + cont a2)%N :: utf8 r2
        | _ => [0xFFFD%N]
        end
      else
        match r with
        | String a1 (String a2 (String a3 r3)) =>
            ((b mod 8) * 262144 + cont a1 * 4096 + cont a2 * 64 + cont a3)%N
              :: utf8 r3
        | _ => [0xFFFD%N]
        end
  end.

Definition str_eqb (a b : str) : bool :=
  if list_eq_dec N.eq_dec a b then true else false.

(** [str.isspace] on one code point: the code points for which CPython's
    [_PyUnicode_IsWhitespace] answers true. [str.strip()] with no argument
    removes exactly these. *)
Definition isspace (c : char) : bool :=
  ((0x09 <=? c) && (c <=? 0x0D) || (0x1C <=? c) && (c <=? 0x20)
   || (c =? 0x85) || (c =? 0xA0) || (c =? 0x1680)
   || (0x2000 <=? c) && (c <=? 0x200A)
   || (c =? 0x2028) || (c =? 0x2029) || (c =? 0x202F)
   || (c =? 0x205F) || (c =? 0x3000))%N.

Fixpoint lstrip (s : str) : str :=
  match s with
  | [] => []
  | c :: r => if isspace c then lstrip r else s
  end.

Definition rstrip (s : str) : str := rev (lstrip (rev s)).

Definition strip (s : str) : str := rstrip (lstrip s).

(** [sep.join(parts)] *)
Fixpoint join (sep : str) (parts : list str) : str :=
  match parts with
  | [] => []
  | [p] => p
  | p :: rest => p ++ sep ++ join sep rest
  end.

(** [str(n)] for a non-negative [int]: decimal digits, no leading zero. *)
Definition ascii_str (s : string) : str :=
  map N_of_ascii (list_ascii_of_string s).

Definition decimal (n : nat) : str :=
  ascii_str (DecimalString.NilEmpty.string_of_uint (Nat.to_uint n)).

Definition decimalZ (z : Z) : str :=
  if (z <? 0)%Z then utf8 "-" ++ decimal (Z.abs_nat z) else decimal (Z.to_nat z).

Definition dq : str := [34%N].
Definition nl : str := [10%N].

(** Several source lines of one literal, each ended by a newline except
    the last. *)
Definition lines (l : list str) : str := join nl l.

(** ** Python values *)

(** The values that flow through the dynamic parts of the program: what
    [json.load] produces (JSON reals left out), and LangChain [Document]s. *)
Inductive pyval : Type :=
| PyNone
| PyBool (b : bool)
| PyInt (z : Z)
| PyStr (s : str)
| PyList (l : list pyval)
| PyDict (d : list (str * pyval))
| PyDoc (page_content : str) (metadata : list (str * pyval)).

(** [bool(v)] *)
Definition truthy (v : pyval) : bool :=
  match v with
  | PyNone => false
  | PyBool b => b
  | PyInt z => negb (z =? 0)%Z
  | PyStr s => match s with [] => false | _ => true end
  | PyList l => match l with [] => false | _ => true end
  | PyDict d => match d with [] => false | _ => true end
  | PyDoc _ _ => true
  end.

(** [d.get(key, default)] on a [dict] held as an association list. *)
Fixpoint dict_get (d : list (str * pyval)) (key : str) (default : pyval) : pyval :=
  match d with
  | [] => default
  | (k, v) :: rest => if str_eqb k key then v else dict_get rest key default
  end.

(** [key in d], with the value found. *)
Fixpoint dict_find (d : list (str * pyval)) (key : str) : option pyval :=
  match d with
  | [] => None
  | (k, v) :: rest => if str_eqb k key then Some v else dict_find rest key
  end.

(** A LangChain [Document]. *)
Record Document := {
  page_content : str;
  metadata : list (str * pyval)
}.

Definition doc_to_py (d : Document) : pyval :=
  PyDoc (page_content d) (metadata d).

(** ** Exceptions and outcomes *)

(** Instances of [Exception]. The program tells apart only the first two
    (by [except] clause); the rest are named for the places that raise
    them. A validation error of pydantic carries the value it rejected,
    which its text repeats as given; [OtherError] carries the text of an
    exception of a collaborator. *)
Inductive exn : Type :=
| FileNotFoundError
| JSONDecodeError
| AttributeError
| TypeError
| ValidationError (given : str)
| OtherError (detail : str).

Inductive outcome (A : Type) : Type :=
| Ok (a : A)
| Raise (e : exn).

Arguments Ok {A} a.
Arguments Raise {A} e.

Definition obind {A B} (o : outcome A) (f : A -> outcome B) : outcome B :=
  match o with
  | Ok a => f a
  | Raise e => Raise e
  end.

(** ** Standard output *)

(** [sys.stdout] encodes as UTF-8 with strict error handling: it writes
    every code point except the surrogates U+D800..U+DFFF, on which
    [print] raises [UnicodeEncodeError]. A message made of literal text
    and of numbers is therefore always written, and is left out of the
    model. So is a message with the text of an exception of the libraries
    called at start-up, on reload and by the connection test (files,
    clients, the index): such a text is taken to be printable. What is
    modelled is the printing of a text that came in with a query: the
    query itself, and the text of an exception raised while answering it.
    ([sys.stderr], to which [traceback.print_exc] writes, escapes what it
    cannot encode and never raises.) *)
Definition is_surrogate (c : char) : bool :=
  (0xD800 <=? c)%N && (c <=? 0xDFFF)%N.

Definition printable (s : str) : bool := negb (existsb is_surrogate s).

Definition UnicodeEncodeError : exn := OtherError (utf8 "UnicodeEncodeError").

Definition UnicodeDecodeError : exn := OtherError (utf8 "UnicodeDecodeError").

Definition print (s : str) : outcome unit :=
  if printable s then Ok tt else Raise UnicodeEncodeError.

(** Whether [print(f"...{e}")] can write [str(e)]. The texts of the
    built-in exceptions raised here are ASCII words around [repr]s, which
    escape the surrogates. *)
Definition exn_printable (e : exn) : bool :=
  match e with
  | ValidationError given => printable given
  | OtherError detail => printable detail
  | _ => true
  end.

(** [print(f"<literal>{e}")] in an [except] clause. *)
Definition print_exn (e : exn) : outcome unit :=
  if exn_printable e then Ok tt else Raise UnicodeEncodeError.

(** ** Collaborators and the trace of their invocations *)

Inductive call : Type :=
| CallRouter (prompt : str)
| CallMain (prompt : str)
| CallRetriever (query : str).

Definition trace := list call.

Definition is_retriever_call (c : call) : bool :=
  match c with CallRetriever _ => true | _ => false end.

(** [ChatOpenAI] followed by [StrOutputParser()]: the text of the reply, or
    an exception once the client's retries are exhausted. The reply may
    depend on everything invoked so far. *)
Record LLM := {
  llm_reply : trace -> str -> outcome str
}.

(** The router model asked for a tool call: an exception, no tool call at
    all ([None]), or the raw value the model put in [destination]. *)
Record RouterLLM := {
  router_reply : trace -> str -> outcome (option str)
}.

(** [ContextualCompressionRetriever]: similarity search then re-ranking. *)
Record Retriever := {
  retriever_reply : trace -> str -> outcome (list Document)
}.

(** Computations that invoke collaborators: the trace is threaded, and
    kept when an exception is raised. *)
Definition M (A : Type) : Type := trace -> outcome A * trace.

Definition ret {A} (a : A) : M A := fun t => (Ok a, t).

Definition raise {A} (e : exn) : M A := fun t => (Raise e, t).

Definition bind {A B} (m : M A) (f : A -> M B) : M B :=
  fun t =>
    match m t with
    | (Ok a, t') => f a t'
    | (Raise e, t') => (Raise e, t')
    end.

Definition lift {A} (o : outcome A) : M A := fun t => (o, t).

(** [try: m  except Exception as e: h e] *)
Definition try_except {A} (m : M A) (h : exn -> M A) : M A :=
  fun t =>
    match m t with
    | (Ok a, t') => (Ok a, t')
    | (Raise e, t') => h e t'
    end.

Notation "x <- m ;; k" := (bind m (fun x => k))
  (at level 61, m at next level, right associativity).

Definition invoke_llm (m : LLM) (prompt : str) : M str :=
  fun t => (llm_reply m t prompt, t ++ [CallMain prompt]).

Definition invoke_router (r : RouterLLM) (prompt : str) : M (option str) :=
  fun t => (router_reply r t prompt, t ++ [CallRouter prompt]).

Definition invoke_retriever (r : Retriever) (query : str) : M (list Document) :=
  fun t => (retriever_reply r t query, t ++ [CallRetriever query]).

(** ** The backend object *)

(** What the chain closes over when it is built. The knowledge scope is
    not part of it: the refusal strategy reads [self.knowledge_scope] anew
    at every invocation. *)
Record Chain := {
  chain_llm_main : LLM;
  chain_llm_router : RouterLLM;
  chain_retriever : Retriever
}.

Record RAGBackend := {
  llm_main : option LLM;
  llm_router : option RouterLLM;
  compression_retriever : option Retriever;
  knowledge_scope : pyval;
  full_chain : option Chain
}.

Definition set_llms (self : RAGBackend) (m : LLM) (r : RouterLLM) : RAGBackend :=
  {| llm_main := Some m;
     llm_router := Some r;
     compression_retriever := compression_retriever self;
     knowledge_scope := knowledge_scope self;
     full_chain := full_chain self |}.

Definition set_compression_retriever (self : RAGBackend) (r : option Retriever)
  : RAGBackend :=
  {| llm_main := llm_main self;
     llm_router := llm_router self;
     compression_retriever := r;
     knowledge_scope := knowledge_scope self;
     full_chain := full_chain self |}.

Definition set_knowledge_scope (self : RAGBackend) (v : pyval) : RAGBackend :=
  {| llm_main := llm_main self;
     llm_router := llm_router self;
     compression_retriever := compression_retriever self;
     knowledge_scope := v;
     full_chain := full_chain self |}.

Definition set_full_chain (self : RAGBackend) (c : Chain) : RAGBackend :=
  {| llm_main := llm_main self;
     llm_router := llm_router self;
     compression_retriever := compression_retriever self;
     knowledge_scope := knowledge_scope self;
     full_chain := Some c |}.

(** ** Start-up *)

(** [open(path) ; json.load(f)]: the parsed document or the exception. *)
Definition FileSystem := str -> outcome pyval.

(** What start-up finds outside the process. *)
Record Env := {
  (* the two [ChatOpenAI] constructors *)
  env_make_llms : outcome (LLM * RouterLLM);
  (* embeddings, [Chroma(...)] and [_collection.count()] *)
  env_doc_count : outcome nat;
  (* [as_retriever], [FlashrankRerank], [ContextualCompressionRetriever] *)
  env_make_retriever : outcome Retriever;
  env_files : FileSystem
}.

Definition _initialize_llms (env : Env) (self : RAGBackend) : outcome RAGBackend :=
  match env_make_llms env with
  | Ok (m, r) => Ok (set_llms self m r)
  | Raise e => Raise e
  end.

Definition _initialize_retriever (env : Env) (self : RAGBackend) : RAGBackend :=
  match env_doc_count env with
  | Ok doc_count =>
      if Nat.eqb doc_count 0 then set_compression_retriever self None
      else
        match env_make_retriever env with
        | Ok r => set_compression_retriever self (Some r)
        | Raise _ => set_compression_retriever self None
        end
  | Raise _ => set_compression_retriever self None
  end.

Definition default_knowledge_scope : list str :=
  [ utf8 "Normative alimentari"; utf8 "Etichettatura prodotti";
    utf8 "Sicurezza alimentare"; utf8 "Additivi e conservanti";
    utf8 "Controlli sanitari"; utf8 "Legislazione europea";
    utf8 "Regolamenti ministeriali"; utf8 "Certificazioni qualità" ].

Definition _create_default_knowledge_scope (self : RAGBackend) : RAGBackend :=
  set_knowledge_scope self (PyList (map PyStr default_knowledge_scope)).

(** [len(v)] *)
Definition py_len (v : pyval) : outcome nat :=
  match v with
  | PyStr s => Ok (List.length s)
  | PyList l => Ok (List.length l)
  | PyDict d => Ok (List.length d)
  | _ => Raise TypeError
  end.

(** [data.get(key, default)] where [data] is whatever [json.load] gave. *)
Definition py_get (data : pyval) (key : str) (default : pyval) : outcome pyval :=
  match data with
  | PyDict d => Ok (dict_get d key default)
  | _ => Raise AttributeError
  end.

Definition scope_key : str := utf8 "scope".
Definition scope_path : str := utf8 "knowledge_scope.json".

(** The body of the [try] in [_load_knowledge_scope]. The [print] of the
    first branch evaluates [len(self.knowledge_scope)]. *)
Definition load_body (fs : FileSystem) (self : RAGBackend) : outcome RAGBackend :=
  obind (fs scope_path) (fun data =>
  obind (py_get data scope_key (PyList [])) (fun v =>
  let self := set_knowledge_scope self v in
  if truthy (knowledge_scope self) then
    obind (py_len (knowledge_scope self)) (fun _ => Ok self)
  else Ok (_create_default_knowledge_scope self))).

Definition _load_knowledge_scope (fs : FileSystem) (self : RAGBackend)
  : outcome RAGBackend :=
  match load_body fs self with
  | Ok self' => Ok self'
  | Raise FileNotFoundError => Ok (_create_default_knowledge_scope self)
  | Raise JSONDecodeError => Ok (_create_default_knowledge_scope self)
  | Raise e => Raise e
  end.

(** [prompt | self.llm_main] and the like fail with [TypeError] on [None]. *)
Definition build_chain (self : RAGBackend) (r : Retriever) : outcome Chain :=
  match llm_main self, llm_router self with
  | Some m, Some rt =>
      Ok {| chain_llm_main := m; chain_llm_router := rt; chain_retriever := r |}
  | _, _ => Raise TypeError
  end.

Definition _build_chain_architecture (self : RAGBackend) : outcome RAGBackend :=
  match compression_retriever self with
  | None => Ok self
  | Some r =>
      match build_chain self r with
      | Ok c => Ok (set_full_chain self c)
      | Raise e => Raise e
      end
  end.

Definition __init__ (env : Env) : outcome RAGBackend :=
  let self :=
    {| llm_main := None; llm_router := None; compression_retriever := None;
       knowledge_scope := PyList []; full_chain := None |} in
  obind (_initialize_llms env self) (fun self =>
  let self := _initialize_retriever env self in
  obind (_load_knowledge_scope (env_files env) self) (fun self =>
  _build_chain_architecture self)).

(** [reload_knowledge_scope]: every exception is swallowed; an assignment
    made before the exception stays. *)
Definition reload_knowledge_scope (fs : FileSystem) (self : RAGBackend)
    (new_scope_path : str) : RAGBackend :=
  match fs new_scope_path with
  | Raise _ => self
  | Ok data =>
      match py_get data scope_key (PyList []) with
      | Raise _ => self
      | Ok v =>
          let self := set_knowledge_scope self v in
          match py_len (knowledge_scope self) with
          | Ok _ => self
          | Raise _ => self
          end
      end
  end.

(** ** Formatting, strategies and the entry point *)

(** Two library functions whose text no property here depends on: Python's
    [repr] of a container or [Document], and the platform's
    [os.path.basename]. *)
Class Runtime := {
  py_repr : pyval -> str;
  os_path_basename : str -> str
}.

Section Pipeline.

Context {rt : Runtime}.

(** [str(v)], which is also what an f-string field [{v}] renders. *)
Definition py_str (v : pyval) : str :=
  match v with
  | PyStr s => s
  | PyNone => utf8 "None"
  | PyBool true => utf8 "True"
  | PyBool false => utf8 "False"
  | PyInt z => decimalZ z
  | _ => py_repr v
  end.

(** The items yielded by iterating [v[:n]]; only [list] and [str] can be
    sliced. *)
Definition py_slice_items (v : pyval) (n : nat) : outcome (list pyval) :=
  match v with
  | PyList l => Ok (firstn n l)
  | PyStr s => Ok (map (fun c => PyStr [c]) (firstn n s))
  | _ => Raise TypeError
  end.

Definition bullet (item : pyval) : str := utf8 "• " ++ py_str item.

Definition more_suffix (n : nat) : str :=
  nl ++ utf8 "• ... e altri " ++ decimal n ++ utf8 " argomenti correlati".

Definition no_scope_message : str := utf8 "Nessun ambito specifico definito.".

Definition _format_knowledge_scope (self : RAGBackend) : outcome str :=
  if negb (truthy (knowledge_scope self)) then Ok no_scope_message
  else
    obind (py_slice_items (knowledge_scope self) 8) (fun scope_items =>
    let formatted := join nl (map bullet scope_items) in
    obind (py_len (knowledge_scope self)) (fun n =>
    if 8 <? n then Ok (formatted ++ more_suffix (n - 8)) else Ok formatted)).

(** *** [format_docs_with_ids] *)

Definition unknown_source : str := utf8 "Fonte sconosciuta".

Definition source_name (doc : Document) : outcome str :=
  let source_info :=
    dict_get (metadata doc) (utf8 "source") (PyStr unknown_source) in
  match source_info with
  | PyStr s => if str_eqb s unknown_source then Ok s else Ok (os_path_basename s)
  | _ => Raise TypeError
  end.

(** [[doc-N]], the marker the generation prompt tells the model to cite. *)
Definition doc_label (n : nat) : str := utf8 "[doc-" ++ decimal n ++ utf8 "]".

(** The f-string appended for the passage at 0-based position [i]. *)
Definition doc_block (i : nat) (source_name : str) (doc : Document) : str :=
  utf8 "Contenuto dal documento " ++ doc_label (i + 1) ++ utf8 " ("
    ++ source_name ++ utf8 "):" ++ nl ++ strip (page_content doc).

Definition enumerate {A} (l : list A) : list (nat * A) :=
  combine (seq 0 (List.length l)) l.

(** The [for] loop, appending to [formatted_docs]. *)
Fixpoint format_loop (items : list (nat * Document)) (formatted_docs : list str)
  : outcome (list str) :=
  match items with
  | [] => Ok formatted_docs
  | (i, doc) :: rest =>
      match source_name doc with
      | Ok name => format_loop rest (formatted_docs ++ [doc_block i name doc])
      | Raise e => Raise e
      end
  end.

Definition docs_separator : str := nl ++ nl ++ utf8 "---" ++ nl ++ nl.

Definition no_docs_message : str := utf8 "Nessun documento trovato.".

Definition format_docs_with_ids (docs : list Document) : outcome str :=
  match docs with
  | [] => Ok no_docs_message
  | _ =>
      obind (format_loop (enumerate docs) []) (fun formatted_docs =>
      Ok (join docs_separator formatted_docs))
  end.

(** *** Prompts *)

Definition conversational_prompt (query : str) : str :=
  utf8 "Sei un assistente AI cordiale di nome Agente AI specializzato in normative alimentari. "
  ++ utf8 "Rispondi in modo amichevole e conciso alla seguente interazione: "
  ++ query.

Definition refusal_prompt (query scope : str) : str :=
  lines
    [ utf8 "Sei un assistente AI specializzato in legislazione alimentare.";
      utf8 "Non sono in grado di rispondere alla domanda: '" ++ query ++ utf8 "'";
      [];
      utf8 "La mia conoscenza è limitata esclusivamente ai documenti forniti nella mia base dati.";
      utf8 "Per ottenere risposte accurate, ti suggerisco di formulare domande sugli argomenti che conosco bene.";
      [];
      utf8 "I principali argomenti su cui posso aiutarti includono:";
      scope;
      [];
      utf8 "Per favore, riformula la tua domanda focalizzandoti su uno di questi temi specifici." ].

Definition rag_prompt (context question : str) : str :=
  lines
    [ utf8 "Sei " ++ dq ++ utf8 "Agente AI" ++ dq
        ++ utf8 ", un consulente esperto di legislazione alimentare.";
      [];
      utf8 "ISTRUZIONI OPERATIVE:";
      utf8 "1. Analizza attentamente il contesto fornito dai documenti numerati [doc-1], [doc-2], ecc.";
      utf8 "2. Rispondi ESCLUSIVAMENTE basandoti su questi documenti ufficiali.";
      utf8 "3. CITAZIONI OBBLIGATORIE: Dopo ogni affermazione specifica, cita immediatamente la fonte usando [doc-N]. Esempio: "
        ++ dq ++ utf8 "Il limite massimo è 5 mg/kg [doc-2]." ++ dq;
      utf8 "4. Per affermazioni supportate da più fonti, cita tutte: "
        ++ dq ++ utf8 "L'etichettatura deve essere chiara [doc-1, doc-3]." ++ dq;
      utf8 "5. NON raggruppare le citazioni alla fine - devono essere integrate nel testo.";
      utf8 "6. Se le informazioni non sono sufficienti, dichiara: "
        ++ dq ++ utf8 "Le informazioni disponibili nei documenti non sono sufficienti per rispondere completamente." ++ dq;
      [];
      utf8 "CONTESTO DOCUMENTALE:";
      context;
      [];
      utf8 "DOMANDA:";
      question;
      [];
      utf8 "RISPOSTA PROFESSIONALE CON CITAZIONI INLINE:" ].

Definition route_prompt (query : str) : str :=
  lines
    [ utf8 "Classifica la seguente query per un assistente di legislazione alimentare: '"
        ++ query ++ utf8 "'";
      [];
      utf8 "CRITERI DI CLASSIFICAZIONE:";
      utf8 "- " ++ dq ++ utf8 "pertinente" ++ dq
        ++ utf8 ": domande su normative alimentari, sicurezza, etichettatura, additivi, ecc.";
      utf8 "- " ++ dq ++ utf8 "conversazionale" ++ dq
        ++ utf8 ": saluti, ringraziamenti, domande sull'assistente.";
      utf8 "- " ++ dq ++ utf8 "non_pertinente" ++ dq
        ++ utf8 ": qualsiasi altra cosa (sport, politica, storia, ecc.)." ].

(** *** Classification *)

Definition pertinente : str := utf8 "pertinente".
Definition non_pertinente : str := utf8 "non_pertinente".
Definition conversazionale : str := utf8 "conversazionale".

(** [class RouteQuery(BaseModel)] with
    [destination: Literal["pertinente", "non_pertinente", "conversazionale"]]:
    constructing it from any other value raises a validation error. *)
Record RouteQuery := { destination : str }.

Definition route_literals : list str :=
  [pertinente; non_pertinente; conversazionale].

Definition RouteQuery_validate (raw : str) : outcome RouteQuery :=
  if existsb (str_eqb raw) route_literals
  then Ok {| destination := raw |}
  else Raise (ValidationError raw).

(** [self.llm_router.with_structured_output(RouteQuery)]: [None] when the
    reply carries no tool call, otherwise the validated object. *)
Definition with_structured_output (r : RouterLLM) (prompt : str)
  : M (option RouteQuery) :=
  raw <- invoke_router r prompt ;;
  match raw with
  | None => ret None
  | Some s => x <- lift (RouteQuery_validate s) ;; ret (Some x)
  end.

Definition classification_chain (c : Chain) (query : str) : M str :=
  x <- with_structured_output (chain_llm_router c) (route_prompt query) ;;
  ret (match x with
       | Some rq => destination rq
       | None => non_pertinente
       end).

(** *** The three strategies *)

(** The dict handed to the branch. *)
Record Routed := {
  routed_destination : str;
  routed_query : str
}.

Definition answer_key : str := utf8 "answer".
Definition source_documents_key : str := utf8 "source_documents".

Definition conversational_chain (c : Chain) (x : Routed) : M pyval :=
  text <- invoke_llm (chain_llm_main c) (conversational_prompt (routed_query x)) ;;
  ret (PyStr text).

Definition intelligent_refusal_chain (self : RAGBackend) (c : Chain) (x : Routed)
  : M pyval :=
  scope <- lift (_format_knowledge_scope self) ;;
  text <- invoke_llm (chain_llm_main c) (refusal_prompt (routed_query x) scope) ;;
  ret (PyStr text).

Definition rag_chain_with_sources (c : Chain) (x : Routed) : M pyval :=
  docs <- invoke_retriever (chain_retriever c) (routed_query x) ;;
  let question := routed_query x in
  context <- lift (format_docs_with_ids docs) ;;
  text <- invoke_llm (chain_llm_main c) (rag_prompt context question) ;;
  ret (PyDict [ (answer_key, PyStr text);
                (source_documents_key, PyList (map doc_to_py docs)) ]).

Definition branch (self : RAGBackend) (c : Chain) (x : Routed) : M pyval :=
  if str_eqb (routed_destination x) pertinente then rag_chain_with_sources c x
  else if str_eqb (routed_destination x) conversazionale
       then conversational_chain c x
       else intelligent_refusal_chain self c x.

(** [self.full_chain.invoke({"query": query})] *)
Definition invoke_full_chain (self : RAGBackend) (c : Chain) (query : str)
  : M pyval :=
  d <- classification_chain c query ;;
  branch self c {| routed_destination := d; routed_query := query |}.

(** *** [get_response] and [_normalize_response] *)

(** The dict [{"answer": ..., "source_documents": ...}]. *)
Record Response := {
  answer : pyval;
  source_documents : pyval
}.

Definition fixed (message : string) : Response :=
  {| answer := PyStr (utf8 message); source_documents := PyList [] |}.

Definition invalid_query_response : Response :=
  fixed "Per favore, inserisci una domanda valida.".

Definition unavailable_response : Response :=
  fixed "Sistema non disponibile. Riprova più tardi.".

Definition technical_error_response : Response :=
  fixed "Mi dispiace, si è verificato un errore tecnico. Per favore riprova.".

Definition _normalize_response (result : pyval) : Response :=
  match result with
  | PyDict d =>
      {| answer := dict_get d answer_key (PyStr (utf8 "Risposta non disponibile."));
         source_documents := dict_get d source_documents_key (PyList []) |}
  | _ => {| answer := PyStr (py_str result); source_documents := PyList [] |}
  end.

Definition falsy_str (s : str) : bool :=
  match s with [] => true | _ => false end.

(** [f"🔍 Elaborazione query: {query[:50]}..."] *)
Definition progress_message (query : str) : str :=
  utf8 "🔍 Elaborazione query: " ++ firstn 50 query ++ utf8 "...".

(** The body of the [try] in [get_response]: the progress line shows the
    query as received, the chain is given the stripped one. *)
Definition respond (self : RAGBackend) (c : Chain) (query : str) : M Response :=
  bind (lift (print (progress_message query))) (fun _ =>
  result <- invoke_full_chain self c (strip query) ;;
  ret (_normalize_response result)).

(** The [except Exception as e] clause of [get_response]: it prints the
    text of the exception, then the traceback, and only then returns. *)
Definition on_error (e : exn) : M Response :=
  bind (lift (print_exn e)) (fun _ => ret technical_error_response).

Definition get_response (self : RAGBackend) (query : str) : M Response :=
  if falsy_str query || falsy_str (strip query) then ret invalid_query_response
  else
    match full_chain self with
    | None => ret unavailable_response
    | Some c => try_except (respond self c query) on_error
    end.

End Pipeline.

(** ** Diagnostics: [get_system_status] and [test_connection] *)

Record StatusReport := {
  llm_main_available : bool;
  llm_router_available : bool;
  retriever_available : bool;
  chain_available : bool;
  document_count : Z;
  knowledge_scope_items : nat;
  status : str
}.

(** The dict the probe returns: the full report, or
    [{"status": "error", "error": str(e)}]. *)
Inductive SystemStatus : Type :=
| StatusReported (r : StatusReport)
| StatusFailed (e : exn).

Definition operational : str := utf8 "operational".
Definition degraded : str := utf8 "degraded".

Definition is_some {A} (o : option A) : bool :=
  match o with Some _ => true | None => false end.

(** [count] is what [vector_store._collection.count()] answers at the time
    of the probe; it is asked only when there is a retriever, and its
    failure is swallowed by the inner bare [except]. *)
Definition get_system_status (count : outcome nat) (self : RAGBackend)
  : SystemStatus :=
  let doc_count :=
    match compression_retriever self with
    | Some _ =>
        match count with
        | Ok n => Z.of_nat n
        | Raise _ => (-1)%Z
        end
    | None => 0%Z
    end in
  let is_operational :=
    is_some (llm_main self) && is_some (llm_router self)
    && is_some (compression_retriever self) && is_some (full_chain self) in
  match py_len (knowledge_scope self) with
  | Ok items =>
      StatusReported
        {| llm_main_available := is_some (llm_main self);
           llm_router_available := is_some (llm_router self);
           retriever_available := is_some (compression_retriever self);
           chain_available := is_some (full_chain self);
           document_count := doc_count;
           knowledge_scope_items := items;
           status := if is_operational then operational else degraded |}
  | Raise e => StatusFailed e
  end.

Definition test_connection (self : RAGBackend) : M bool :=
  try_except
    (match llm_main self with
     | None => raise AttributeError
     | Some m =>
         bind (invoke_llm m (utf8 "Test di connessione.")) (fun _ =>
         match compression_retriever self with
         | Some r => bind (invoke_retriever r (utf8 "test")) (fun _ => ret true)
         | None => ret true
         end)
     end)
    (fun _ => ret false).

(** ** [create_default_knowledge_scope_file] *)

(** What a path holds: a JSON document (as [json.load] would parse it),
    text that is not JSON, bytes that are not UTF-8 text, or a directory. *)
Inductive disk_entry : Type :=
| JsonDocument (v : pyval)
| NotJson
| NotText
| Directory.

Definition Disk := str -> option disk_entry.

(** [open(path) ; json.load(f)] on a disk. *)
Definition read_json (disk : Disk) : FileSystem :=
  fun path =>
    match disk path with
    | None => Raise FileNotFoundError
    | Some (JsonDocument v) => Ok v
    | Some NotJson => Raise JSONDecodeError
    | Some NotText => Raise UnicodeDecodeError
    | Some Directory => Raise (OtherError (utf8 "IsADirectoryError"))
    end.

Definition disk_put (disk : Disk) (path : str) (e : disk_entry) : Disk :=
  fun p => if str_eqb p path then Some e else disk p.

(** How [open(path, 'w')] followed by [json.dump] ends: the document is
    written; the file cannot be opened; or the file is created and the
    write breaks off, leaving a truncated file, cut between two characters
    or inside the bytes of one (the document is written with
    [ensure_ascii=False]). *)
Inductive write_attempt : Type :=
| WriteCompletes
| OpenFails
| WriteBreaksOff (inside_character : bool).

(** What is left of a JSON object whose writing broke off: no proper
    prefix of it is a JSON document. *)
Definition truncated (inside_character : bool) : disk_entry :=
  if inside_character then NotText else NotJson.

Definition file_scope : list str :=
  [ utf8 "Normative alimentari europee"; utf8 "Regolamenti ministeriali italiani";
    utf8 "Etichettatura prodotti alimentari"; utf8 "Sicurezza alimentare e HACCP";
    utf8 "Additivi e conservanti autorizzati"; utf8 "Controlli sanitari e ispezioni";
    utf8 "Certificazioni di qualità"; utf8 "Allergeni e intolleranze";
    utf8 "Limiti microbiologici"; utf8 "Tracciabilità alimentare";
    utf8 "Novel food e alimenti innovativi"; utf8 "Sostanze contaminanti";
    utf8 "Materiali a contatto con alimenti"; utf8 "Etichettatura nutrizionale";
    utf8 "Claim salutistici" ].

Definition default_scope : pyval :=
  PyDict [(scope_key, PyList (map PyStr file_scope))].

Definition create_default_knowledge_scope_file (attempt : write_attempt)
    (disk : Disk) : Disk :=
  match disk scope_path with
  | Some _ => disk
  | None =>
      match attempt with
      | WriteCompletes => disk_put disk scope_path (JsonDocument default_scope)
      | OpenFails => disk
      | WriteBreaksOff inside => disk_put disk scope_path (truncated inside)
      end
  end.

(** ** Indexing ([ingest.py]) *)

(** What [create_vector_db] does to the world, in order. *)
Inductive ingest_effect : Type :=
| RemovedIndex
| AskedAnalyzer (text_sample : str)
| WroteScope (knowledge_scope : pyval)
| LeftBrokenScope
| StoredIndex (all_chunks : list Document).

(** The collaborators of one run. *)
Record IngestEnv := {
  (* [os.path.exists(DATA_PATH)], [os.path.exists(DB_PATH)] *)
  data_exists : bool;
  db_exists : bool;
  (* [shutil.rmtree(DB_PATH)] *)
  ingest_rmtree : outcome unit;
  (* [DirectoryLoader(...).load()] *)
  ingest_load : outcome (list Document);
  (* the analyzer chain on the text sample, parsed as JSON *)
  ingest_analyze : str -> outcome pyval;
  (* [open(KNOWLEDGE_SCOPE_FILE, 'w')] and [json.dump] *)
  ingest_write : write_attempt;
  (* [HuggingFaceEmbeddings(...)] and [SemanticChunker(...)] *)
  ingest_embeddings : outcome unit;
  (* the texts of [text_splitter.create_documents([content])] *)
  ingest_split : str -> outcome (list str);
  (* [Chroma.from_documents(...)] and [db.persist()] *)
  ingest_store : list Document -> outcome unit
}.

(** [" ".join([doc.page_content for doc in documents[:5]])[:8000]] *)
Definition full_text_sample (documents : list Document) : str :=
  firstn (N.to_nat 8000) (join (utf8 " ") (map page_content (firstn 5 documents))).

(** The [try] around the extraction of the knowledge scope: whatever
    happens inside is swallowed. The final [print] calls
    [knowledge_scope.get], after the file is written. *)
Definition extract_scope (env : IngestEnv) (documents : list Document)
  : list ingest_effect :=
  let sample := full_text_sample documents in
  AskedAnalyzer sample ::
  match ingest_analyze env sample with
  | Raise _ => []
  | Ok knowledge_scope =>
      match ingest_write env with
      | WriteCompletes => [WroteScope knowledge_scope]
      | OpenFails => []
      | WriteBreaksOff _ => [LeftBrokenScope]
      end
  end.

Definition chunks_of (doc : Document) (texts : list str) : list Document :=
  map (fun text => {| page_content := text; metadata := metadata doc |}) texts.

(** The [for doc in documents] loop. *)
Fixpoint split_documents (split : str -> outcome (list str))
    (documents : list Document) (all_chunks : list Document)
  : outcome (list Document) :=
  match documents with
  | [] => Ok all_chunks
  | doc :: rest =>
      match split (page_content doc) with
      | Ok texts => split_documents split rest (all_chunks ++ chunks_of doc texts)
      | Raise e => Raise e
      end
  end.

Definition create_vector_db (env : IngestEnv)
  : outcome unit * list ingest_effect :=
  if negb (data_exists env) then (Ok tt, [])
  else
    match (if db_exists env then ingest_rmtree env else Ok tt) with
    | Raise e => (Raise e, [])
    | Ok _ =>
        let removed := if db_exists env then [RemovedIndex] else [] in
        match ingest_load env with
        | Raise e => (Raise e, removed)
        | Ok [] => (Ok tt, removed)
        | Ok documents =>
            let effects := removed ++ extract_scope env documents in
            match ingest_embeddings env with
            | Raise e => (Raise e, effects)
            | Ok _ =>
                match split_documents (ingest_split env) documents [] with
                | Raise e => (Raise e, effects)
                | Ok all_chunks =>
                    match ingest_store env all_chunks with
                    | Raise e => (Raise e, effects)
                    | Ok _ => (Ok tt, effects ++ [StoredIndex all_chunks])
                    end
                end
            end
        end
    end.

(** ** [truncate_text] ([config/settings.py]) *)

(** [s[:k]] for an [int] [k] of either sign. *)
Definition py_slice_to (s : str) (k : Z) : str :=
  if (k <? 0)%Z
  then firstn (Z.to_nat (Z.of_nat (List.length s) + k)) s
  else firstn (Z.to_nat k) s.

Definition truncate_text (text : str) (max_length : Z) (suffix : str) : str :=
  if (Z.of_nat (List.length text) <=? max_length)%Z then text
  else py_slice_to text (max_length - Z.of_nat (List.length suffix)) ++ suffix.

(** ** The chat window ([ui/chat_interface.py]) *)

(** Two facts about the interpreter that its version decides: which code
    points beyond ASCII are decimal digits (what [\d] matches and [int]
    reads), and the cap on the number of digits [int] accepts ([None] when
    there is none). *)
Class Interpreter := {
  nonascii_digit : char -> option nat;
  int_max_str_digits : option nat
}.

Section ChatWindow.

Context {rt : Runtime}.
Context {py : Interpreter}.

Definition digit_value (c : char) : option nat :=
  if ((48 <=? c) && (c <=? 57))%N then Some (N.to_nat (c - 48))
  else if (c <? 128)%N then None
  else nonascii_digit c.

(** The longest run of digits at the head of [s], with their values, and
    what follows. *)
Fixpoint digit_run (s : str) : list (char * nat) * str :=
  match s with
  | [] => ([], [])
  | c :: r =>
      match digit_value c with
      | Some d => let (ds, rest) := digit_run r in ((c, d) :: ds, rest)
      | None => ([], s)
      end
  end.

Fixpoint strip_prefix (prefix s : str) : option str :=
  match prefix, s with
  | [], _ => Some s
  | p :: ps, c :: r => if (p =? c)%N then strip_prefix ps r else None
  | _ :: _, [] => None
  end.

Definition marker_open : str := utf8 "[doc-".
Definition marker_close : char := 93%N.

(** [re.match(r'\[doc-(\d+)\]', s)]: the digits of group 1. The run of
    digits is greedy, and giving digits back cannot help, since what must
    follow is not a digit. *)
Definition match_marker (s : str) : option (list (char * nat)) :=
  match strip_prefix marker_open s with
  | None => None
  | Some r =>
      match digit_run r with
      | (d :: ds, c :: _) =>
          if (c =? marker_close)%N then Some (d :: ds) else None
      | _ => None
      end
  end.

(** [re.finditer] over the text still to scan: for each match, the text
    since the previous match and the digits; then the text after the last
    match. [inside] counts the characters of a match still to be passed
    over. *)
Fixpoint finditer (s : str) (inside : nat) (since : str)
  : list (str * list (char * nat)) * str :=
  match s with
  | [] => ([], since)
  | c :: r =>
      match inside with
      | S k => finditer r k since
      | O =>
          match match_marker s with
          | Some ds =>
              let (ms, tail) := finditer r (5 + List.length ds) [] in
              ((since, ds) :: ms, tail)
          | None => finditer r 0 (since ++ [c])
          end
      end
  end.

Definition over_limit (n : nat) : bool :=
  match int_max_str_digits with
  | Some limit => limit <? n
  | None => false
  end.

(** [int(match.group(1))] *)
Definition py_int (digits : list (char * nat)) : outcome nat :=
  if over_limit (List.length digits) then Raise (OtherError (utf8 "ValueError"))
  else Ok (fold_left (fun acc d => 10 * acc + snd d) digits 0).

(** [sources[i]] for [i] within [len(sources)]. *)
Definition py_item (sources : pyval) (i : nat) : outcome pyval :=
  match sources with
  | PyList l =>
      match nth_error l i with
      | Some v => Ok v
      | None => Raise (OtherError (utf8 "IndexError"))
      end
  | PyStr s =>
      match nth_error s i with
      | Some c => Ok (PyStr [c])
      | None => Raise (OtherError (utf8 "IndexError"))
      end
  | PyDict _ => Raise (OtherError (utf8 "KeyError"))
  | _ => Raise TypeError
  end.

Inductive widget_op : Type :=
| InsertText (s : str)
| CitationButton (number : nat) (source_content : str) (source_metadata : pyval).

(** The passage a marker with number [n] opens, if [0 <= n - 1 <
    len(sources)]; [len] is not evaluated when [n - 1] is negative. *)
Definition citation_target (sources : pyval) (n : nat)
  : outcome (option widget_op) :=
  match n with
  | O => Ok None
  | S doc_index =>
      obind (py_len sources) (fun len =>
      if doc_index <? len then
        obind (py_item sources doc_index) (fun item =>
        match item with
        | PyDoc content meta =>
            Ok (Some (CitationButton (doc_index + 1) content
                        (dict_get meta (utf8 "source")
                           (PyStr (utf8 "Fonte sconosciuta")))))
        | _ => Raise AttributeError
        end)
      else Ok None)
  end.

Definition marker_text (digits : list (char * nat)) : str :=
  marker_open ++ map fst digits ++ [marker_close].

(** The [for match in matches] loop. *)
Fixpoint citation_loop (matches : list (str * list (char * nat)))
    (sources : pyval) (ops : list widget_op) : outcome (list widget_op) :=
  match matches with
  | [] => Ok ops
  | (since, digits) :: rest =>
      let ops := ops ++ [InsertText since] in
      obind (py_int digits) (fun n =>
      obind (citation_target sources n) (fun target =>
      match target with
      | Some button => citation_loop rest sources (ops ++ [button])
      | None => citation_loop rest sources (ops ++ [InsertText (marker_text digits)])
      end))
  end.

Definition _create_message_with_sources (text : str) (sources : pyval)
  : outcome (list widget_op) :=
  let (matches, tail) := finditer text 0 [] in
  obind (citation_loop matches sources []) (fun ops =>
  Ok (ops ++ [InsertText tail])).

Inductive bubble : Type :=
| SimpleMessage (text : pyval) (role : str)
| CitedMessage (ops : list widget_op).

Definition assistant : str := utf8 "assistant".
Definition user : str := utf8 "user".

Definition _add_message (response_dict : Response) (role : str) : outcome bubble :=
  let text := answer response_dict in
  let sources := source_documents response_dict in
  if str_eqb role assistant && truthy sources then
    match text with
    | PyStr s =>
        obind (_create_message_with_sources s sources) (fun ops =>
        Ok (CitedMessage ops))
    | _ => Raise TypeError
    end
  else Ok (SimpleMessage text role).

Definition ui_failure_response : Response :=
  fixed "⚠️ Mi dispiace, si è verificato un problema tecnico. Per favore riprova tra qualche istante.".

(** The worker's [except] clause prints the text of the exception before
    it falls back on its own answer. *)
Definition _get_ai_response (self : RAGBackend) (prompt : str) : M Response :=
  try_except (get_response self prompt)
    (fun e => bind (lift (print_exn e)) (fun _ => ret ui_failure_response)).

(** One turn of the chat, from the text of the entry to the two bubbles it
    adds (none for a blank entry). The worker thread and the hand-over to
    the main loop run one after the other. *)
Definition _on_send_message (self : RAGBackend) (entry : str)
  : M (list (outcome bubble)) :=
  let prompt := strip entry in
  if falsy_str prompt then ret []
  else
    let shown :=
      _add_message {| answer := PyStr prompt; source_documents := PyList [] |} user in
    response_dict <- _get_ai_response self prompt ;;
    ret [shown; _add_message response_dict assistant].

End ChatWindow.

(** ** Vocabulary of the properties *)

(** The passage's [source] metadata is text, or missing. *)
Definition well_sourced (doc : Document) : bool :=
  match dict_get (metadata doc) (utf8 "source") (PyStr (utf8 "Fonte sconosciuta")) with
  | PyStr _ => true
  | _ => false
  end.

Definition topic_bullet (topic : str) : str := utf8 "• " ++ topic.

(** A scope rendered as bullets: the first 8 topics, then the line that
    counts the rest when there are more. *)
Definition bulleted_scope (topics : list str) : str :=
  join nl (map topic_bullet (firstn 8 topics))
  ++ (if 8 <? List.length topics
      then nl ++ utf8 "• ... e altri " ++ decimal (List.length topics - 8)
              ++ utf8 " argomenti correlati"
      else []).

(** The scope file gives nothing to use: it is absent, it is not valid
    JSON, or it is an object whose [scope] is missing or empty (falsy). *)
Definition scope_file_unusable (fs : FileSystem) : Prop :=
  fs scope_path = Raise FileNotFoundError \/
  fs scope_path = Raise JSONDecodeError \/
  exists d, fs scope_path = Ok (PyDict d) /\
            truthy (dict_get d scope_key (PyList [])) = false.

(** The index is unusable: opening it failed, it holds no document, or the
    re-ranking retriever could not be put together. *)
Definition index_unusable (env : Env) : Prop :=
  (exists e, env_doc_count env = Raise e) \/
  env_doc_count env = Ok 0 \/
  (exists e, env_make_retriever env = Raise e).

(** Nothing in this stretch of the trace is an invocation of the retriever. *)
Definition no_retrieval (suffix : trace) : Prop :=
  Forall (fun c => is_retriever_call c = false) suffix.

(** The environment with another state of the vector index. *)
Definition with_index (env : Env) (doc_count : outcome nat)
    (make_retriever : outcome Retriever) : Env :=
  {| env_make_llms := env_make_llms env;
     env_doc_count := doc_count;
     env_make_retriever := make_retriever;
     env_files := env_files env |}.

(** The matches and the text between them make up the whole text. *)
Definition reassemble (matches : list (str * list (char * nat))) : str :=
  List.concat (map (fun m => fst m ++ marker_text (snd m)) matches).

(** What a button may be when the evidence is a list of passages. *)
Definition opens (docs : list Document) (op : widget_op) : Prop :=
  match op with
  | InsertText _ => True
  | CitationButton n content meta =>
      1 <= n <= List.length docs /\
      exists doc,
        nth_error docs (n - 1) = Some doc /\
        content = page_content doc /\
        meta = dict_get (metadata doc) (utf8 "source")
                 (PyStr (utf8 "Fonte sconosciuta"))
  end.

Definition inserted (op : widget_op) : str :=
  match op with
  | InsertText s => s
  | CitationButton _ _ _ => []
  end.

Definition is_button (op : widget_op) : bool :=
  match op with
  | InsertText _ => false
  | CitationButton _ _ _ => true
  end.

(** The digits of a decimal numeral as the matcher sees them. *)
Definition read_digits (s : str) : list (char * nat) :=
  map (fun c => (c, N.to_nat (c - 48))) s.

Definition uint_str (d : Decimal.uint) : str :=
  ascii_str (DecimalString.NilEmpty.string_of_uint d).

(** Every chunk comes from a loaded document: its text is one of the texts
    the splitter gave for that document, and its metadata is that
    document's. *)
Definition from_document (split : str -> outcome (list str))
    (documents : list Document) (chunk : Document) : Prop :=
  exists doc texts,
    In doc documents /\
    split (page_content doc) = Ok texts /\
    In (page_content chunk) texts /\
    metadata chunk = metadata doc.

(** ** Sample collaborators and environments *)

Module Sample.

(** [posixpath.basename]: what follows the last slash. *)
Fixpoint basename_from (s acc : str) : str :=
  match s with
  | [] => acc
  | c :: r =>
      if (c =? 47)%N then basename_from r [] else basename_from r (acc ++ [c])
  end.

Definition basename (s : str) : str := basename_from s [].

Definition repr (v : pyval) : str := utf8 "<object>".

Definition main : LLM := {| llm_reply := fun _ _ => Ok (utf8 "Risposta.") |}.

Definition router (reply : outcome (option str)) : RouterLLM :=
  {| router_reply := fun _ _ => reply |}.

Definition nitrites : Document :=
  {| page_content := utf8 "  Nitriti: limite 150 mg/kg.  ";
     metadata := [(utf8 "source", PyStr (utf8 "docs/reg_1333.pdf"))] |}.

Definition labelling : Document :=
  {| page_content := utf8 "Etichettatura chiara e leggibile.";
     metadata := [(utf8 "page", PyInt 3)] |}.

Definition retriever : Retriever :=
  {| retriever_reply := fun _ _ => Ok [nitrites; labelling] |}.

Definition no_file : FileSystem := fun _ => Raise FileNotFoundError.

Definition env (reply : outcome (option str)) (doc_count : nat)
    (fs : FileSystem) : Env :=
  {| env_make_llms := Ok (main, router reply);
     env_doc_count := Ok doc_count;
     env_make_retriever := Ok retriever;
     env_files := fs |}.

Definition chain (reply : outcome (option str)) : Chain :=
  {| chain_llm_main := main;
     chain_llm_router := router reply;
     chain_retriever := retriever |}.

(** The backend [__init__] builds over a populated index and no scope
    file. *)
Definition backend (reply : outcome (option str)) : RAGBackend :=
  {| llm_main := Some main;
     llm_router := Some (router reply);
     compression_retriever := Some retriever;
     knowledge_scope := PyList (map PyStr default_knowledge_scope);
     full_chain := Some (chain reply) |}.

(** The backend [__init__] builds over an empty index. *)
Definition degraded : RAGBackend :=
  {| llm_main := Some main;
     llm_router := Some (router (Ok None));
     compression_retriever := None;
     knowledge_scope := PyList (map PyStr default_knowledge_scope);
     full_chain := None |}.

Definition with_scope (v : pyval) : RAGBackend :=
  set_knowledge_scope (backend (Ok None)) v.

Definition runtime : Runtime :=
  {| py_repr := repr; os_path_basename := basename |}.

Definition get_response := get_response (rt := runtime).

Definition ten_topics : list str :=
  [ utf8 "Normative alimentari europee"; utf8 "Regolamenti ministeriali italiani";
    utf8 "Etichettatura prodotti alimentari"; utf8 "Sicurezza alimentare e HACCP";
    utf8 "Additivi e conservanti autorizzati"; utf8 "Controlli sanitari e ispezioni";
    utf8 "Certificazioni di qualità"; utf8 "Allergeni e intolleranze";
    utf8 "Limiti microbiologici"; utf8 "Tracciabilità alimentare" ].

Definition corrupt_file : FileSystem := fun _ => Raise JSONDecodeError.

(** A well-formed document with no [scope] key. *)
Definition no_scope_key : FileSystem :=
  fun _ => Ok (PyDict [(utf8 "topics", PyList [PyStr (utf8 "HACCP")])]).

Definition interpreter : Interpreter :=
  {| nonascii_digit := fun _ => None; int_max_str_digits := Some 4300 |}.

Definition silent_retriever : Retriever :=
  {| retriever_reply := fun _ _ => Ok [] |}.

Definition failing_retriever : Retriever :=
  {| retriever_reply := fun _ _ => Raise (OtherError (utf8 "ConnectionError")) |}.

Definition chain_with (reply : outcome (option str)) (r : Retriever) : Chain :=
  {| chain_llm_main := main;
     chain_llm_router := router reply;
     chain_retriever := r |}.

Definition backend_with (reply : outcome (option str)) (r : Retriever)
  : RAGBackend :=
  {| llm_main := Some main;
     llm_router := Some (router reply);
     compression_retriever := Some r;
     knowledge_scope := PyList (map PyStr default_knowledge_scope);
     full_chain := Some (chain_with reply r) |}.

(** Scope files of several shapes. *)
Definition scope_file (v : pyval) : FileSystem :=
  fun _ => Ok (PyDict [(scope_key, v)]).

Definition array_file : FileSystem :=
  fun _ => Ok (PyList [PyStr (utf8 "HACCP")]).

Definition empty_disk : Disk := fun _ => None.

(** One run of the indexing over two documents. *)
Definition ingest_env : IngestEnv :=
  {| data_exists := true;
     db_exists := true;
     ingest_rmtree := Ok tt;
     ingest_load := Ok [nitrites; labelling];
     ingest_analyze := fun _ => Ok (PyList []);
     ingest_write := WriteCompletes;
     ingest_embeddings := Ok tt;
     ingest_split := fun content => Ok [firstn 10 content; skipn 10 content];
     ingest_store := fun _ => Ok tt |}.


(** The same run over a [DATASET] folder without PDFs. *)
Definition ingest_env_without_pdfs : IngestEnv :=
  {| data_exists := true;
     db_exists := true;
     ingest_rmtree := Ok tt;
     ingest_load := Ok [];
     ingest_analyze := ingest_analyze ingest_env;
     ingest_write := WriteCompletes;
     ingest_embeddings := Ok tt;
     ingest_split := ingest_split ingest_env;
     ingest_store := ingest_store ingest_env |}.

End Sample.

(** * Properties *)

Unset Implicit Arguments.

(** ** Strings and dicts *)

Lemma str_eqb_eq (a b : str) : str_eqb a b = true <-> a = b.
Proof.
  unfold str_eqb. destruct (list_eq_dec N.eq_dec a b); split; congruence.
Qed.

Lemma str_eqb_refl (a : str) : str_eqb a a = true.
Proof. now apply str_eqb_eq. Qed.

Lemma str_eqb_neq (a b : str) : str_eqb a b = false <-> a <> b.
Proof.
  unfold str_eqb. destruct (list_eq_dec N.eq_dec a b); split; congruence.
Qed.

Lemma dict_get_find (d : list (str * pyval)) (key : str) (default v : pyval) :
  dict_find d key = Some v -> dict_get d key default = v.
Proof.
  induction d as [|[k w] rest IH]; simpl; [discriminate|].
  destruct (str_eqb k key); [now intros [= ->]|exact IH].
Qed.

Lemma dict_get_missing (d : list (str * pyval)) (key : str) (default : pyval) :
  dict_find d key = None -> dict_get d key default = default.
Proof.
  induction d as [|[k w] rest IH]; simpl; [reflexivity|].
  destruct (str_eqb k key); [discriminate|exact IH].
Qed.

(** ** The samples behave as the code does *)

Example init_populated :
  __init__ (Sample.env (Ok None) 42 Sample.no_file) = Ok (Sample.backend (Ok None)).
Proof. reflexivity. Qed.

Example init_empty_index :
  __init__ (Sample.env (Ok None) 0 Sample.no_file) = Ok Sample.degraded.
Proof. reflexivity. Qed.

Example strip_unicode_space :
  strip (0xA0%N :: utf8 "  a b " ++ [0x3000%N]) = utf8 "a b".
Proof. reflexivity. Qed.

Example basename_posix :
  Sample.basename (utf8 "docs/reg_1333.pdf") = utf8 "reg_1333.pdf".
Proof. reflexivity. Qed.


(** ** Start-up invariants *)

Lemma load_keeps_components (fs : FileSystem) (self self' : RAGBackend) :
  _load_knowledge_scope fs self = Ok self' ->
  llm_main self' = llm_main self /\
  llm_router self' = llm_router self /\
  compression_retriever self' = compression_retriever self /\
  full_chain self' = full_chain self.
Proof.
  unfold _load_knowledge_scope, load_body, obind.
  destruct (fs scope_path) as [data|e].
  - destruct (py_get data scope_key (PyList [])) as [v|e]; simpl.
    + destruct (truthy v).
      * destruct (py_len v); [intros [= <-]; auto|].
        destruct e; intros [= <-]; auto.
      * intros [= <-]; auto.
    + destruct e; intros [= <-]; auto.
  - destruct e; intros [= <-]; auto.
Qed.

(** After a start-up that completes, the chain exists exactly when the
    retriever does. *)
Lemma init_chain_iff_retriever (env : Env) (self : RAGBackend) :
  __init__ env = Ok self ->
  (full_chain self = None <-> compression_retriever self = None).
Proof.
  unfold __init__, _initialize_llms, obind.
  destruct (env_make_llms env) as [[m r]|e]; [|discriminate].
  set (s1 := _initialize_retriever env _).
  destruct (_load_knowledge_scope (env_files env) s1) as [s2|e] eqn:L;
    [|discriminate].
  destruct (load_keeps_components _ _ _ L) as (Hm & Hr & Hc & Hf).
  assert (full_chain s1 = None) as F1.
  { unfold s1, _initialize_retriever.
    destruct (env_doc_count env) as [n|]; [|reflexivity].
    destruct (Nat.eqb n 0); [reflexivity|].
    destruct (env_make_retriever env); reflexivity. }
  unfold _build_chain_architecture.
  destruct (compression_retriever s2) as [rt|] eqn:C.
  - destruct (build_chain s2 rt); [|discriminate].
    intros [= <-]. simpl. rewrite C. split; discriminate.
  - intros [= <-]. rewrite C, Hf, F1. tauto.
Qed.

Lemma init_retriever_of_env (env : Env) (self : RAGBackend) :
  __init__ env = Ok self ->
  compression_retriever self =
    compression_retriever
      (_initialize_retriever env
         {| llm_main := None; llm_router := None; compression_retriever := None;
            knowledge_scope := PyList []; full_chain := None |}).
Proof.
  unfold __init__, _initialize_llms, obind.
  destruct (env_make_llms env) as [[m r]|e]; [|discriminate].
  set (s1 := _initialize_retriever env _).
  destruct (_load_knowledge_scope (env_files env) s1) as [s2|e] eqn:L;
    [|discriminate].
  destruct (load_keeps_components _ _ _ L) as (_ & _ & Hc & _).
  unfold _build_chain_architecture.
  assert (compression_retriever s2 = compression_retriever
            (_initialize_retriever env
               {| llm_main := None; llm_router := None;
                  compression_retriever := None;
                  knowledge_scope := PyList []; full_chain := None |})) as K.
  { rewrite Hc. unfold s1, _initialize_retriever.
    destruct (env_doc_count env) as [n|]; [|reflexivity].
    destruct (Nat.eqb n 0); [reflexivity|].
    destruct (env_make_retriever env); reflexivity. }
  rewrite <- K. clear K Hc L.
  destruct (compression_retriever s2) as [rt|] eqn:C.
  - destruct (build_chain s2 rt); [|discriminate].
    intros [= <-]. simpl. now rewrite C.
  - intros [= <-]. now rewrite C.
Qed.

Lemma index_unusable_no_retriever (env : Env) (self : RAGBackend) :
  __init__ env = Ok self ->
  index_unusable env ->
  compression_retriever self = None.
Proof.
  intros I U. rewrite (init_retriever_of_env _ _ I).
  unfold _initialize_retriever.
  destruct U as [[e ->]|[->|[e E]]]; try reflexivity.
  destruct (env_doc_count env) as [n|]; [|reflexivity].
  destruct (Nat.eqb n 0); [reflexivity|]. now rewrite E.
Qed.

(** ** Input validation *)

Lemma strip_nil : strip [] = [].
Proof. reflexivity. Qed.

Lemma valid_query_passes (query : str) :
  strip query <> [] -> falsy_str query || falsy_str (strip query) = false.
Proof.
  intros H. destruct query as [|c r]; [now rewrite strip_nil in H|].
  simpl falsy_str at 1. simpl. destruct (strip (c :: r)); [easy|reflexivity].
Qed.

(** ** Printing *)

Lemma printable_app (s1 s2 : str) :
  printable (s1 ++ s2) = printable s1 && printable s2.
Proof.
  unfold printable. rewrite existsb_app. apply negb_orb.
Qed.

Lemma printable_forall (s : str) :
  printable s = true <-> forall c, In c s -> is_surrogate c = false.
Proof.
  unfold printable. rewrite negb_true_iff. split.
  - intros E c I. destruct (is_surrogate c) eqn:S; [|reflexivity].
    rewrite <- E. symmetry. apply existsb_exists. now exists c.
  - intros A. destruct (existsb is_surrogate s) eqn:E; [|reflexivity].
    apply existsb_exists in E. destruct E as (c & I & S).
    now rewrite (A c I) in S.
Qed.

Lemma printable_incl (s1 s2 : str) :
  incl s1 s2 -> printable s2 = true -> printable s1 = true.
Proof.
  rewrite !printable_forall. intros I A c H. apply A, I, H.
Qed.

Lemma printable_firstn (n : nat) (s : str) :
  printable s = true -> printable (firstn n s) = true.
Proof.
  apply printable_incl. intros c I.
  rewrite <- (firstn_skipn n s). apply in_or_app. now left.
Qed.

Lemma progress_printable (query : str) :
  printable (progress_message query) = printable (firstn 50 query).
Proof.
  unfold progress_message. rewrite !printable_app.
  replace (printable (utf8 "🔍 Elaborazione query: ")) with true
    by (vm_compute; reflexivity).
  replace (printable (utf8 "...")) with true by (vm_compute; reflexivity).
  cbn [andb]. apply andb_true_r.
Qed.

Lemma literals_printable (s : str) : In s route_literals -> printable s = true.
Proof.
  intros [<-|[<-|[<-|[]]]]; vm_compute; reflexivity.
Qed.

Section Properties.

Context {rt : Runtime}.

(** What the entry point makes of a valid query once the chain is built:
    the progress line is printed, then the chain runs on the stripped
    query, and whatever is raised goes through the handler, which prints
    before it answers. *)
Lemma get_response_run
    (self : RAGBackend) (c : Chain) (query : str) (t : trace) :
  full_chain self = Some c ->
  strip query <> [] ->
  get_response self query t
  = if printable (firstn 50 query)
    then match invoke_full_chain self c (strip query) t with
         | (Ok v, t') => (Ok (_normalize_response v), t')
         | (Raise e, t') =>
             (if exn_printable e then Ok technical_error_response
              else Raise UnicodeEncodeError, t')
         end
    else (Ok technical_error_response, t).
Proof.
  intros F V. unfold get_response.
  rewrite (valid_query_passes _ V), F.
  unfold try_except, respond, on_error, bind, lift, ret, print, print_exn.
  rewrite progress_printable.
  destruct (printable (firstn 50 query)); [|reflexivity].
  destruct (invoke_full_chain self c (strip query) t) as [[v|e] t'];
    [reflexivity|].
  destruct (exn_printable e); reflexivity.
Qed.

(** The only exception the entry point lets through is the one its own
    handler raises while printing. *)
Lemma get_response_raises_only_encode_error
    (self : RAGBackend) (query : str) (t t' : trace) (e : exn) :
  get_response self query t = (Raise e, t') -> e = UnicodeEncodeError.
Proof.
  unfold get_response.
  destruct (falsy_str query || falsy_str (strip query)); [discriminate|].
  destruct (full_chain self) as [c|]; [|discriminate].
  unfold try_except, on_error, bind, lift, ret, print_exn.
  destruct (respond self c query t) as [[r|e0] t0]; [discriminate|].
  destruct (exn_printable e0); [discriminate|]. now intros [= <- _].
Qed.

(** C4. A query that is empty, or empty once stripped of whitespace, gets
    the fixed invalid-query answer with no evidence, and the trace of
    collaborator invocations is left as it was: neither model nor the
    retriever is invoked. *)
Theorem invalid_query_short_circuits (self : RAGBackend) (query : str) (t : trace) :
  strip query = [] ->
  get_response self query t = (Ok invalid_query_response, t)
  /\ source_documents invalid_query_response = PyList [].
Proof.
  intros H. unfold get_response. rewrite H. simpl falsy_str.
  rewrite orb_true_r. split; reflexivity.
Qed.

(** C5. After a completed start-up in which the retriever is unavailable
    (in particular when the vector index holds zero documents), a valid
    query gets the fixed system-unavailable answer with no evidence and no
    collaborator is invoked. *)
Theorem unavailable_when_retriever_missing
    (env : Env) (self : RAGBackend) (query : str) (t : trace) :
  __init__ env = Ok self ->
  compression_retriever self = None \/ index_unusable env ->
  strip query <> [] ->
  get_response self query t = (Ok unavailable_response, t)
  /\ source_documents unavailable_response = PyList [].
Proof.
  intros I U V.
  assert (compression_retriever self = None) as C.
  { destruct U as [U|U]; [exact U|]. eapply index_unusable_no_retriever; eauto. }
  apply (init_chain_iff_retriever _ _ I) in C.
  unfold get_response. rewrite (valid_query_passes _ V), C.
  split; reflexivity.
Qed.

(** ** Traces of the strategies *)

Lemma in_route_literals (s : str) :
  existsb (str_eqb s) route_literals = true <-> In s route_literals.
Proof.
  rewrite existsb_exists. split.
  - intros (x & I & E). apply str_eqb_eq in E. now subst.
  - intros I. exists s. split; [exact I|apply str_eqb_refl].
Qed.

Lemma classification_run (c : Chain) (query : str) (t : trace) :
  classification_chain c query t =
    (match router_reply (chain_llm_router c) t (route_prompt query) with
     | Ok None => Ok non_pertinente
     | Ok (Some s) =>
         if existsb (str_eqb s) route_literals then Ok s
         else Raise (ValidationError s)
     | Raise e => Raise e
     end,
     t ++ [CallRouter (route_prompt query)]).
Proof.
  unfold classification_chain, with_structured_output, invoke_router, bind, ret, lift.
  destruct (router_reply _ _ _) as [[s|]|e]; try reflexivity.
  unfold RouteQuery_validate.
  destruct (existsb (str_eqb s) route_literals); reflexivity.
Qed.

Lemma conversational_run (c : Chain) (x : Routed) (t : trace) :
  exists suffix,
    snd (conversational_chain c x t) = t ++ suffix /\ no_retrieval suffix /\
    forall v, fst (conversational_chain c x t) = Ok v -> exists text, v = PyStr text.
Proof.
  unfold conversational_chain, invoke_llm, bind, ret.
  eexists [_]. destruct (llm_reply _ _ _) as [text|e]; simpl; repeat split;
    try (repeat constructor); try discriminate.
  intros v [= <-]. now exists text.
Qed.

Lemma refusal_run (self : RAGBackend) (c : Chain) (x : Routed) (t : trace) :
  exists suffix,
    snd (intelligent_refusal_chain self c x t) = t ++ suffix /\
    no_retrieval suffix /\
    forall v, fst (intelligent_refusal_chain self c x t) = Ok v ->
              exists text, v = PyStr text.
Proof.
  unfold intelligent_refusal_chain, invoke_llm, bind, ret, lift.
  destruct (_format_knowledge_scope self) as [scope|e].
  - eexists [_]. destruct (llm_reply _ _ _) as [text|e]; simpl; repeat split;
      try (repeat constructor); try discriminate.
    intros v [= <-]. now exists text.
  - exists []. simpl. rewrite app_nil_r. repeat split; [constructor|discriminate].
Qed.

Lemma branch_elsewhere (self : RAGBackend) (c : Chain) (d query : str) (t : trace) :
  d <> pertinente ->
  exists suffix,
    snd (branch self c {| routed_destination := d; routed_query := query |} t)
      = t ++ suffix /\
    no_retrieval suffix /\
    forall v,
      fst (branch self c {| routed_destination := d; routed_query := query |} t)
        = Ok v ->
      exists text, v = PyStr text.
Proof.
  intros N. unfold branch. cbn [routed_destination].
  apply str_eqb_neq in N. rewrite N.
  destruct (str_eqb d conversazionale).
  - apply conversational_run.
  - apply refusal_run.
Qed.

Lemma labels_differ :
  conversazionale <> pertinente /\ non_pertinente <> pertinente.
Proof. split; vm_compute; discriminate. Qed.

Lemma rag_run (c : Chain) (x : Routed) (t : trace) (v : pyval) :
  fst (rag_chain_with_sources c x t) = Ok v ->
  exists docs text,
    retriever_reply (chain_retriever c) t (routed_query x) = Ok docs /\
    v = PyDict [ (answer_key, PyStr text);
                 (source_documents_key, PyList (map doc_to_py docs)) ].
Proof.
  unfold rag_chain_with_sources, invoke_retriever, invoke_llm, bind, ret, lift.
  destruct (retriever_reply _ _ _) as [docs|e]; [|discriminate].
  destruct (format_docs_with_ids docs) as [context|e]; [|discriminate].
  destruct (llm_reply _ _ _) as [text|e]; [|discriminate].
  simpl. intros [= <-]. now exists docs, text.
Qed.

(** C3. The handler of the entry point prints the text of the exception
    before it answers. When the router's label contains a surrogate, the
    validation error that rejects it repeats the label, the handler's
    [print] raises, and the entry point raises instead of returning the
    technical-error answer. *)
Theorem fail_soft_breaks_on_unprintable_error
    (self : RAGBackend) (c : Chain) (query s : str) (t : trace) :
  full_chain self = Some c ->
  strip query <> [] ->
  printable (firstn 50 query) = true ->
  router_reply (chain_llm_router c) t (route_prompt (strip query)) = Ok (Some s) ->
  printable s = false ->
  get_response self query t
  = (Raise UnicodeEncodeError, t ++ [CallRouter (route_prompt (strip query))]).
Proof.
  intros F V P H U. rewrite (get_response_run self c query t F V), P.
  unfold invoke_full_chain, bind. rewrite classification_run, H.
  destruct (existsb (str_eqb s) route_literals) eqn:E.
  - apply in_route_literals, literals_printable in E. congruence.
  - cbn [exn_printable]. now rewrite U.
Qed.

(** C1. With the chain built and a valid query: when the classifier's
    destination is [conversazionale] or [non_pertinente], every result the
    entry point returns carries no evidence and nothing it invokes is the
    retriever; and whenever a returned result does carry evidence, the
    destination was [pertinente], the retriever returned a non-empty list,
    and the evidence is that list. A result is returned unless the chain
    raised an exception whose text the handler cannot print. *)
Theorem evidence_only_when_relevant
    (self : RAGBackend) (c : Chain) (query : str) (t : trace) :
  full_chain self = Some c ->
  strip query <> [] ->
  (forall d t1,
     classification_chain c (strip query) t = (Ok d, t1) ->
     d = conversazionale \/ d = non_pertinente ->
     (forall r t2, get_response self query t = (Ok r, t2) ->
                   source_documents r = PyList []) /\
     exists suffix,
       snd (get_response self query t) = t ++ suffix /\ no_retrieval suffix) /\
  (forall r t2,
     get_response self query t = (Ok r, t2) ->
     source_documents r <> PyList [] ->
     exists t1 docs,
       classification_chain c (strip query) t = (Ok pertinente, t1) /\
       retriever_reply (chain_retriever c) t1 (strip query) = Ok docs /\
       docs <> [] /\
       source_documents r = PyList (map doc_to_py docs)) /\
  ((forall e t',
      invoke_full_chain self c (strip query) t = (Raise e, t') ->
      exn_printable e = true) ->
   exists r t2, get_response self query t = (Ok r, t2)).
Proof.
  intros F V. rewrite (get_response_run self c query t F V).
  apply and_assoc. split.
  2:{ intros Pr. destruct (printable (firstn 50 query));
        [|now eexists; eexists].
      destruct (invoke_full_chain self c (strip query) t) as [[v|e] t'];
        [now eexists; eexists|].
      rewrite (Pr e t' eq_refl). now eexists; eexists. }
  destruct (printable (firstn 50 query)).
  - unfold invoke_full_chain, bind.
    destruct (classification_chain c (strip query) t) as [[d|e] t1] eqn:K.
    + split.
      * intros d' t1' [= <- <-] D.
        assert (d <> pertinente) as N
          by (destruct D as [->| ->]; apply labels_differ).
        destruct (branch_elsewhere self c d (strip query) t1 N)
          as (suf & S & NR & TXT).
        rewrite classification_run in K. injection K as _ K1.
        destruct (branch self c _ t1) as [[v|e] t3]; simpl in *.
        -- destruct (TXT v eq_refl) as (text & ->). split.
           ++ now intros r t2 [= <- _].
           ++ exists (CallRouter (route_prompt (strip query)) :: suf).
              subst. rewrite <- app_assoc. split; [reflexivity|].
              constructor; [reflexivity|exact NR].
        -- split.
           ++ intros r t2. destruct (exn_printable e); [|discriminate].
              now intros [= <- _].
           ++ exists (CallRouter (route_prompt (strip query)) :: suf).
              subst. rewrite <- app_assoc. split; [reflexivity|].
              constructor; [reflexivity|exact NR].
      * intros r t2 G NE. exists t1.
        destruct (str_eqb d pertinente) eqn:P.
        -- apply str_eqb_eq in P. subst d.
           unfold branch in *. cbn [routed_destination] in *.
           rewrite str_eqb_refl in *.
           destruct (rag_chain_with_sources _ _ t1) as [[v|e] t3] eqn:R.
           ++ assert (fst (rag_chain_with_sources c
                        {| routed_destination := pertinente;
                           routed_query := strip query |} t1) = Ok v) as R1
                by now rewrite R.
              apply rag_run in R1. destruct R1 as (docs & text & RR & ->).
              injection G as <- _. simpl in *.
              exists docs. repeat split; auto.
              intros ->. now apply NE.
           ++ destruct (exn_printable e); [|discriminate].
              injection G as <- _. now contradiction NE.
        -- apply str_eqb_neq in P.
           destruct (branch_elsewhere self c d (strip query) t1 P)
             as (suf & S & NR & TXT).
           destruct (branch self c _ t1) as [[v|e] t3]; simpl in *.
           ++ destruct (TXT v eq_refl) as (text & ->).
              injection G as <- _. now contradiction NE.
           ++ destruct (exn_printable e); [|discriminate].
              injection G as <- _. now contradiction NE.
    + split.
      * intros d t1' [=].
      * intros r t2. destruct (exn_printable e); [|discriminate].
        intros [= <- _] NE. now contradiction NE.
  - split.
    + intros d t1 _ _. split.
      * now intros r t2 [= <- _].
      * exists []. rewrite app_nil_r. split; [reflexivity|constructor].
    + intros r t2 [= <- _] NE. now contradiction NE.
Qed.

(** ** Classification *)

(** C2 (amended). Whenever classification returns, the destination is one
    of the three literals; a reply with no tool call becomes
    [non_pertinente]; a valid label is kept. A label outside the three is
    not coerced: [RouteQuery] rejects it and classification raises the
    validation error; the entry point, once it has printed its progress
    line and the text of that error, answers with the fixed
    technical-error result. *)
Theorem classification_is_closed
    (self : RAGBackend) (c : Chain) (query : str) (t : trace) :
  full_chain self = Some c ->
  strip query <> [] ->
  (forall d, fst (classification_chain c (strip query) t) = Ok d ->
             In d route_literals) /\
  (router_reply (chain_llm_router c) t (route_prompt (strip query)) = Ok None ->
   fst (classification_chain c (strip query) t) = Ok non_pertinente) /\
  (forall s,
     router_reply (chain_llm_router c) t (route_prompt (strip query)) = Ok (Some s) ->
     In s route_literals ->
     fst (classification_chain c (strip query) t) = Ok s) /\
  (forall s,
     router_reply (chain_llm_router c) t (route_prompt (strip query)) = Ok (Some s) ->
     ~ In s route_literals ->
     fst (classification_chain c (strip query) t) = Raise (ValidationError s) /\
     (printable (firstn 50 query) = true ->
      printable s = true ->
      get_response self query t
        = (Ok technical_error_response,
           t ++ [CallRouter (route_prompt (strip query))]))).
Proof.
  intros F V. rewrite classification_run. cbn [fst].
  split; [|split; [|split; [|intros s H N; split]]].
  - destruct (router_reply _ _ _) as [[s|]|e]; intros d.
    + destruct (existsb (str_eqb s) route_literals) eqn:E; [|discriminate].
      intros [= <-]. now apply in_route_literals.
    + intros [= <-]. right. left. reflexivity.
    + discriminate.
  - now intros ->.
  - intros s -> I. apply in_route_literals in I. now rewrite I.
  - rewrite H. destruct (existsb (str_eqb s) route_literals) eqn:E; [|reflexivity].
    apply in_route_literals in E. contradiction.
  - intros P Q. rewrite (get_response_run self c query t F V), P.
    unfold invoke_full_chain, bind. rewrite classification_run, H.
    destruct (existsb (str_eqb s) route_literals) eqn:E.
    + apply in_route_literals in E. contradiction.
    + cbn [exn_printable]. now rewrite Q.
Qed.

(** ** Normalisation *)

(** C7. A dict is normalised field by field: [answer] and
    [source_documents] are kept when present (and defaulted when absent);
    anything that is not a dict becomes its [str] with no evidence. *)
Theorem normalize_response_shape (result : pyval) :
  (forall d, result = PyDict d ->
     _normalize_response result
       = {| answer := dict_get d answer_key (PyStr (utf8 "Risposta non disponibile."));
            source_documents := dict_get d source_documents_key (PyList []) |}
     /\ (forall a, dict_find d answer_key = Some a ->
                   answer (_normalize_response result) = a)
     /\ (forall e, dict_find d source_documents_key = Some e ->
                   source_documents (_normalize_response result) = e)) /\
  ((forall d, result <> PyDict d) ->
     _normalize_response result
       = {| answer := PyStr (py_str result);
            source_documents := PyList [] |}).
Proof.
  split.
  - intros d ->. split; [reflexivity|]. simpl.
    split; intros v Fd; now apply dict_get_find.
  - intros N. destruct result; try reflexivity. now contradiction (N d).
Qed.

(** ** Citation indices *)

Lemma well_sourced_named (doc : Document) :
  well_sourced doc = true -> exists name, source_name doc = Ok name.
Proof.
  unfold well_sourced, source_name, unknown_source.
  destruct (dict_get (metadata doc) (utf8 "source") (PyStr (utf8 "Fonte sconosciuta")))
    as [ |b|z|src|l|d|pc md]; try discriminate.
  intros _. destruct (str_eqb src _); eauto.
Qed.

Lemma format_loop_positions (docs : list Document) :
  forall (k : nat) (acc : list str),
    forallb well_sourced docs = true ->
    exists blocks,
      format_loop (combine (seq k (List.length docs)) docs) acc
        = Ok (acc ++ blocks) /\
      List.length blocks = List.length docs /\
      forall j doc,
        nth_error docs j = Some doc ->
        exists name,
          source_name doc = Ok name /\
          nth_error blocks j = Some (doc_block (k + j) name doc).
Proof.
  induction docs as [|d ds IH]; intros k acc W.
  - exists []. simpl. rewrite app_nil_r. repeat split.
    intros [|j] doc; discriminate.
  - simpl in W. apply andb_true_iff in W. destruct W as [Wd Wds].
    destruct (well_sourced_named d Wd) as (name & Nm).
    destruct (IH (S k) (acc ++ [doc_block k name d]) Wds) as (blocks & L & Len & Nth).
    exists (doc_block k name d :: blocks). simpl. rewrite Nm, L, <- app_assoc.
    repeat split; [now rewrite Len|].
    intros [|j] doc; simpl.
    + intros [= <-]. exists name. now rewrite Nat.add_0_r.
    + intros E. destruct (Nth j doc E) as (n & Sn & B).
      exists n. split; [exact Sn|]. now rewrite Nat.add_succ_r.
Qed.

Lemma ascii_str_inj (a b : string) : ascii_str a = ascii_str b -> a = b.
Proof.
  unfold ascii_str. intros E.
  rewrite <- (string_of_list_ascii_of_string a), <- (string_of_list_ascii_of_string b).
  f_equal. revert E.
  generalize (list_ascii_of_string a) (list_ascii_of_string b).
  induction l as [|x l IH]; intros [|y l']; simpl; try discriminate; [reflexivity|].
  intros [= E1 E2]. f_equal; [|now apply IH].
  now rewrite <- (ascii_N_embedding x), <- (ascii_N_embedding y), E1.
Qed.

Lemma decimal_inj (n m : nat) : decimal n = decimal m -> n = m.
Proof.
  unfold decimal. intros E. apply ascii_str_inj in E.
  assert (Nat.to_uint n = Nat.to_uint m) as U.
  { apply (f_equal DecimalString.NilEmpty.uint_of_string) in E.
    rewrite !DecimalString.NilEmpty.usu in E. congruence. }
  rewrite <- (DecimalNat.Unsigned.of_to n), <- (DecimalNat.Unsigned.of_to m).
  now rewrite U.
Qed.

Lemma doc_label_inj (i j : nat) : doc_label i = doc_label j -> i = j.
Proof.
  unfold doc_label. intros E. apply app_inv_head in E.
  apply app_inv_tail in E. now apply decimal_inj.
Qed.

(** C6. For a non-empty evidence sequence whose sources are text (or
    missing), the context is the blocks joined by the separator, one block
    per passage in order, and the block of the i-th passage (counting from
    1) is headed by the marker [[doc-i]]; markers of different positions
    differ. *)
Theorem citation_index_is_position (docs : list Document) :
  docs <> [] ->
  forallb well_sourced docs = true ->
  exists blocks,
    format_docs_with_ids docs = Ok (join docs_separator blocks) /\
    List.length blocks = List.length docs /\
    (forall i doc,
       1 <= i ->
       nth_error docs (i - 1) = Some doc ->
       exists name,
         source_name doc = Ok name /\
         nth_error blocks (i - 1)
           = Some (utf8 "Contenuto dal documento " ++ doc_label i ++ utf8 " ("
                     ++ name ++ utf8 "):" ++ nl ++ strip (page_content doc))) /\
    (forall i j, doc_label i = doc_label j -> i = j).
Proof.
  intros NE W.
  destruct (format_loop_positions docs 0 [] W) as (blocks & L & Len & Nth).
  exists blocks. split; [|split; [exact Len|split]].
  - destruct docs as [|d ds]; [contradiction|].
    unfold format_docs_with_ids, enumerate. now rewrite L.
  - intros i doc I E. destruct (Nth (i - 1) doc E) as (name & Sn & B).
    exists name. split; [exact Sn|]. rewrite B. unfold doc_block.
    simpl Nat.add. now replace (i - 1 + 1) with i by lia.
  - exact doc_label_inj.
Qed.

(** A context is produced for no other evidence: whenever the formatter
    returns, every passage had a text (or missing) source. *)
Lemma named_well_sourced (doc : Document) (name : str) :
  source_name doc = Ok name -> well_sourced doc = true.
Proof.
  unfold well_sourced, source_name, unknown_source.
  destruct (dict_get (metadata doc) (utf8 "source") (PyStr (utf8 "Fonte sconosciuta")));
    (reflexivity || discriminate).
Qed.

Lemma format_loop_sources (items : list (nat * Document)) :
  forall acc out,
    format_loop items acc = Ok out ->
    forallb well_sourced (map snd items) = true.
Proof.
  induction items as [|[i d] rest IH]; intros acc out; simpl; [reflexivity|].
  destruct (source_name d) as [name|e] eqn:Sn; [|discriminate].
  intros L. rewrite (named_well_sourced _ _ Sn). exact (IH _ _ L).
Qed.

Lemma enumerate_snd (docs : list Document) :
  map snd (enumerate docs) = docs.
Proof.
  unfold enumerate. generalize 0.
  induction docs as [|d ds IH]; intros k; simpl; [reflexivity|].
  now rewrite IH.
Qed.

Lemma context_only_when_well_sourced (docs : list Document) (context : str) :
  docs <> [] ->
  format_docs_with_ids docs = Ok context ->
  forallb well_sourced docs = true.
Proof.
  intros NE. destruct docs as [|d ds]; [contradiction|].
  unfold format_docs_with_ids, obind.
  destruct (format_loop _ _) as [out|e] eqn:L; [|discriminate].
  intros _. apply format_loop_sources in L. now rewrite enumerate_snd in L.
Qed.

(** ** Rendering of the knowledge scope *)

Lemma bullets_of_topics (topics : list str) :
  map bullet (map PyStr topics) = map topic_bullet topics.
Proof. now rewrite map_map. Qed.

(** C8 (amended). A non-empty list of topics is rendered as one bullet per
    topic for the first 8 topics at most, followed by the "... e altri N
    argomenti correlati" line with N = len - 8 exactly when there are more
    than 8; an empty list is rendered as the fixed sentence
    "Nessun ambito specifico definito." instead. *)
Theorem scope_rendering (self : RAGBackend) (topics : list str) :
  knowledge_scope self = PyList (map PyStr topics) ->
  (topics = [] -> _format_knowledge_scope self = Ok no_scope_message) /\
  (topics <> [] ->
     _format_knowledge_scope self = Ok (bulleted_scope topics) /\
     List.length (firstn 8 topics) <= 8 /\
     (8 < List.length topics ->
        bulleted_scope topics
          = join nl (map topic_bullet (firstn 8 topics))
              ++ more_suffix (List.length topics - 8)) /\
     (List.length topics <= 8 ->
        bulleted_scope topics = join nl (map topic_bullet topics))).
Proof.
  intros K. unfold _format_knowledge_scope. rewrite K. split.
  - now intros ->.
  - intros NE. destruct topics as [|x xs] eqn:T; [contradiction|].
    rewrite <- T in *. assert (truthy (PyList (map PyStr topics)) = true) as Tr
      by now rewrite T.
    rewrite Tr. simpl negb. cbv iota.
    unfold py_slice_items, py_len, obind, bulleted_scope.
    rewrite firstn_map, length_map, bullets_of_topics.
    split; [|split; [|split]].
    + destruct (8 <? List.length topics); [reflexivity|now rewrite app_nil_r].
    + apply firstn_le_length.
    + intros G. apply Nat.ltb_lt in G. now rewrite G.
    + intros G. rewrite firstn_all2 by exact G.
      assert ((8 <? List.length topics) = false) as -> by (apply Nat.ltb_ge; exact G).
      now rewrite app_nil_r.
Qed.

End Properties.

(** ** Loading and reloading the knowledge scope *)

Lemma initialize_retriever_keeps_llms (env : Env) (self : RAGBackend) :
  llm_main (_initialize_retriever env self) = llm_main self /\
  llm_router (_initialize_retriever env self) = llm_router self.
Proof.
  unfold _initialize_retriever.
  destruct (env_doc_count env) as [n|]; [|split; reflexivity].
  destruct (Nat.eqb n 0); [split; reflexivity|].
  destruct (env_make_retriever env); split; reflexivity.
Qed.

Lemma build_after_default (self : RAGBackend) (m : LLM) (r : RouterLLM) :
  llm_main self = Some m ->
  llm_router self = Some r ->
  exists b,
    _build_chain_architecture (_create_default_knowledge_scope self) = Ok b /\
    knowledge_scope b = PyList (map PyStr default_knowledge_scope).
Proof.
  intros Hm Hr. unfold _build_chain_architecture, build_chain.
  cbn [_create_default_knowledge_scope set_knowledge_scope
       compression_retriever llm_main llm_router].
  rewrite Hm, Hr. destruct (compression_retriever self); eexists; split;
    reflexivity.
Qed.

(** C9 (amended). When [knowledge_scope.json] is absent, is text that is
    not valid JSON, or is an object whose [scope] is missing or empty, the
    start-up load succeeds and leaves the built-in default list as the
    scope; and start-up as a whole, once the models are created, completes
    with that scope. *)
Theorem startup_scope_falls_back (env : Env) (self : RAGBackend) :
  scope_file_unusable (env_files env) ->
  _load_knowledge_scope (env_files env) self
    = Ok (_create_default_knowledge_scope self) /\
  knowledge_scope (_create_default_knowledge_scope self)
    = PyList (map PyStr default_knowledge_scope) /\
  default_knowledge_scope <> [] /\
  (forall m r,
     env_make_llms env = Ok (m, r) ->
     exists b,
       __init__ env = Ok b /\
       knowledge_scope b = PyList (map PyStr default_knowledge_scope)).
Proof.
  intros U.
  assert (forall s, _load_knowledge_scope (env_files env) s
                    = Ok (_create_default_knowledge_scope s)) as L.
  { intros s. unfold _load_knowledge_scope, load_body, obind.
    destruct U as [-> | [-> | (d & -> & E)]]; try reflexivity.
    cbn [py_get set_knowledge_scope knowledge_scope]. now rewrite E. }
  split; [apply L|]. split; [reflexivity|]. split; [discriminate|].
  intros m r E. unfold __init__, _initialize_llms, obind. rewrite E, L.
  destruct (initialize_retriever_keeps_llms env
              (set_llms
                 {| llm_main := None; llm_router := None;
                    compression_retriever := None;
                    knowledge_scope := PyList []; full_chain := None |} m r))
    as [Hm Hr].
  cbn [set_llms llm_main llm_router] in Hm, Hr.
  eapply build_after_default; eassumption.
Qed.

(** C10. Reloading never installs the built-in default. If reading or
    parsing raises, or the document is not an object, the backend is left
    as it was; an object whose [scope] is missing or the empty list makes
    the scope the empty list; and in every case the backend is either
    unchanged or holds what the file gave for [scope]. *)
Theorem reload_never_defaults (fs : FileSystem) (self : RAGBackend) (path : str) :
  (forall e, fs path = Raise e -> reload_knowledge_scope fs self path = self) /\
  (forall data, fs path = Ok data -> (forall d, data <> PyDict d) ->
                reload_knowledge_scope fs self path = self) /\
  (forall d, fs path = Ok (PyDict d) ->
     dict_find d scope_key = None \/ dict_find d scope_key = Some (PyList []) ->
     knowledge_scope (reload_knowledge_scope fs self path) = PyList [] /\
     knowledge_scope (reload_knowledge_scope fs self path)
       <> PyList (map PyStr default_knowledge_scope)) /\
  (reload_knowledge_scope fs self path = self \/
   exists d, fs path = Ok (PyDict d) /\
             reload_knowledge_scope fs self path
               = set_knowledge_scope self (dict_get d scope_key (PyList []))).
Proof.
  unfold reload_knowledge_scope.
  split; [|split; [|split]].
  - now intros e ->.
  - intros data -> N. destruct data; try reflexivity. now contradiction (N d).
  - intros d -> M. cbn [py_get].
    assert (dict_get d scope_key (PyList []) = PyList []) as ->.
    { destruct M as [M|M];
        [now apply dict_get_missing|now apply dict_get_find]. }
    split; [reflexivity|discriminate].
  - destruct (fs path) as [data|e]; [|now left].
    destruct data; try (now left). right. exists d. split; [reflexivity|].
    cbn [py_get]. destruct (py_len _); reflexivity.
Qed.

(** * Further properties of the backend *)

(** ** Stripping *)

Lemma lstrip_idempotent (s : str) : lstrip (lstrip s) = lstrip s.
Proof.
  induction s as [|c r IH]; [reflexivity|].
  simpl. destruct (isspace c) eqn:E; [exact IH|].
  simpl. now rewrite E.
Qed.

Lemma lstrip_keeps_last (a : str) (c : char) :
  isspace c = false -> exists a', lstrip (a ++ [c]) = a' ++ [c].
Proof.
  intros E. induction a as [|x a IH]; simpl.
  - rewrite E. now exists [].
  - destruct (isspace x); [exact IH|]. now exists (x :: a).
Qed.

Lemma lstrip_fixed (c : char) (r : str) :
  isspace c = false -> lstrip (c :: r) = c :: r.
Proof. intros E. simpl. now rewrite E. Qed.

Lemma lstrip_head (s : str) :
  lstrip s = [] \/ exists c r, lstrip s = c :: r /\ isspace c = false.
Proof.
  induction s as [|c r IH]; [now left|].
  simpl. destruct (isspace c) eqn:E; [exact IH|]. right. now exists c, r.
Qed.

Lemma rstrip_idempotent (s : str) : rstrip (rstrip s) = rstrip s.
Proof.
  unfold rstrip. now rewrite rev_involutive, lstrip_idempotent.
Qed.

Lemma lstrip_rstrip_of_stripped (x : str) :
  lstrip x = x -> lstrip (rstrip x) = rstrip x.
Proof.
  intros Fx. destruct (lstrip_head x) as [E|(c & r & E & Sp)];
    rewrite Fx in E; subst x; [reflexivity|].
  unfold rstrip. cbn [rev].
  destruct (lstrip_keeps_last (rev r) c Sp) as (a' & E').
  rewrite E', rev_app_distr. cbn [rev app]. now apply lstrip_fixed.
Qed.

Lemma strip_idempotent (s : str) : strip (strip s) = strip s.
Proof.
  unfold strip.
  rewrite (lstrip_rstrip_of_stripped (lstrip s) (lstrip_idempotent s)).
  apply rstrip_idempotent.
Qed.

(** ** What start-up leaves behind *)

Lemma load_scope_sized (fs : FileSystem) (self self' : RAGBackend) :
  _load_knowledge_scope fs self = Ok self' ->
  exists n, py_len (knowledge_scope self') = Ok n.
Proof.
  unfold _load_knowledge_scope, load_body, obind.
  destruct (fs scope_path) as [data|e].
  - destruct (py_get data scope_key (PyList [])) as [v|e]; simpl.
    + destruct (truthy v).
      * destruct (py_len v) as [n|e] eqn:L.
        -- intros [= <-]. simpl. now exists n.
        -- destruct e; intros [= <-]; now eexists.
      * intros [= <-]. now eexists.
    + destruct e; intros [= <-]; now eexists.
  - destruct e; intros [= <-]; now eexists.
Qed.

Lemma build_keeps_scope (self self' : RAGBackend) :
  _build_chain_architecture self = Ok self' ->
  knowledge_scope self' = knowledge_scope self /\
  llm_main self' = llm_main self /\
  llm_router self' = llm_router self.
Proof.
  unfold _build_chain_architecture.
  destruct (compression_retriever self) as [r|]; [|intros [= <-]; auto].
  destruct (build_chain self r); [|discriminate]. intros [= <-]. auto.
Qed.

(** A backend that start-up returned has both models and a scope that has
    a length. *)
Lemma init_models_and_scope (env : Env) (self : RAGBackend) :
  __init__ env = Ok self ->
  is_some (llm_main self) = true /\
  is_some (llm_router self) = true /\
  exists n, py_len (knowledge_scope self) = Ok n.
Proof.
  unfold __init__, _initialize_llms, obind.
  destruct (env_make_llms env) as [[m r]|e]; [|discriminate].
  set (s1 := _initialize_retriever env _).
  destruct (_load_knowledge_scope (env_files env) s1) as [s2|e] eqn:L;
    [|discriminate].
  intros B.
  destruct (load_keeps_components _ _ _ L) as (Hm & Hr & _ & _).
  destruct (load_scope_sized _ _ _ L) as (n & Hn).
  destruct (build_keeps_scope _ _ B) as (Ks & Km & Kr).
  destruct (initialize_retriever_keeps_llms env
              (set_llms
                 {| llm_main := None; llm_router := None;
                    compression_retriever := None;
                    knowledge_scope := PyList []; full_chain := None |} m r))
    as [Im Ir].
  fold s1 in Im, Ir. cbn [set_llms llm_main llm_router] in Im, Ir.
  rewrite Km, Kr, Ks, Hm, Hr, Im, Ir. repeat split. now exists n.
Qed.

Section BackendExtras.

Context {rt : Runtime}.

(** ** The entry point *)

Lemma lstrip_incl (s : str) : incl (lstrip s) s.
Proof.
  induction s as [|c r IH]; [easy|]. simpl.
  destruct (isspace c); [now apply incl_tl|apply incl_refl].
Qed.

Lemma strip_incl (s : str) : incl (strip s) s.
Proof.
  intros c I. unfold strip, rstrip in I.
  apply in_rev, lstrip_incl, in_rev in I. now apply lstrip_incl.
Qed.

Lemma progress_printed (query : str) :
  printable query = true -> print (progress_message query) = Ok tt.
Proof.
  intros P. unfold print.
  now rewrite progress_printable, (printable_firstn 50 query P).
Qed.

(** X2. Whitespace around a query that contains no surrogate does not
    matter: the entry point does on it exactly what it does on the
    stripped query. *)
Theorem get_response_ignores_padding (self : RAGBackend) (query : str) (t : trace) :
  printable query = true ->
  get_response self query t = get_response self (strip query) t.
Proof.
  intros P.
  assert (printable (strip query) = true) as P'
    by (apply (printable_incl (strip query) query); [apply strip_incl|exact P]).
  unfold get_response, respond. rewrite strip_idempotent.
  rewrite (progress_printed query P), (progress_printed (strip query) P').
  destruct query as [|c r]; [reflexivity|].
  cbn [falsy_str orb].
  destruct (strip (c :: r)); reflexivity.
Qed.

(** ** The RAG strategy at its edges *)

Lemma relevant_run (self : RAGBackend) (c : Chain) (query : str) (t : trace) :
  router_reply (chain_llm_router c) t (route_prompt query) = Ok (Some pertinente) ->
  invoke_full_chain self c query t
  = rag_chain_with_sources c
      {| routed_destination := pertinente; routed_query := query |}
      (t ++ [CallRouter (route_prompt query)]).
Proof.
  intros R. unfold invoke_full_chain, bind.
  rewrite classification_run, R.
  replace (existsb (str_eqb pertinente) route_literals) with true by reflexivity.
  unfold branch. cbn [routed_destination]. now rewrite str_eqb_refl.
Qed.

Lemma format_loop_raises (items : list (nat * Document)) :
  forall (acc : list str) (e : exn),
    format_loop items acc = Raise e -> e = TypeError.
Proof.
  induction items as [|[i doc] rest IH]; intros acc e; simpl; [discriminate|].
  unfold source_name.
  destruct (dict_get (metadata doc) (utf8 "source") (PyStr unknown_source));
    try (now intros [= <-]).
  destruct (str_eqb s unknown_source); apply IH.
Qed.

Lemma format_docs_raises_type_error (docs : list Document) (e : exn) :
  format_docs_with_ids docs = Raise e -> e = TypeError.
Proof.
  unfold format_docs_with_ids, obind. destruct docs as [|d ds]; [discriminate|].
  destruct (format_loop _ _) eqn:L; [discriminate|].
  intros [= <-]. eapply format_loop_raises, L.
Qed.

(** X3. When the retriever finds nothing, the RAG strategy still asks the
    main model, with the context "Nessun documento trovato.", and the
    result carries the model's text and no evidence. When the model raises,
    the answer is the technical-error one, unless the text of the exception
    cannot be printed. *)
Theorem rag_with_no_passages
    (self : RAGBackend) (c : Chain) (query : str) (t : trace) :
  full_chain self = Some c ->
  strip query <> [] ->
  printable (firstn 50 query) = true ->
  router_reply (chain_llm_router c) t (route_prompt (strip query))
    = Ok (Some pertinente) ->
  retriever_reply (chain_retriever c)
    (t ++ [CallRouter (route_prompt (strip query))]) (strip query) = Ok [] ->
  get_response self query t
  = (match llm_reply (chain_llm_main c)
             (t ++ [CallRouter (route_prompt (strip query));
                    CallRetriever (strip query)])
             (rag_prompt no_docs_message (strip query)) with
     | Ok text => Ok {| answer := PyStr text; source_documents := PyList [] |}
     | Raise e =>
         if exn_printable e then Ok technical_error_response
         else Raise UnicodeEncodeError
     end,
     t ++ [CallRouter (route_prompt (strip query));
           CallRetriever (strip query);
           CallMain (rag_prompt no_docs_message (strip query))]).
Proof.
  intros F V P R D. rewrite (get_response_run self c query t F V), P.
  rewrite (relevant_run self c (strip query) t R).
  unfold rag_chain_with_sources, invoke_retriever, invoke_llm, bind, lift, ret.
  cbn [routed_query]. rewrite D. cbn [format_docs_with_ids].
  rewrite <- !app_assoc. cbn [app].
  destruct (llm_reply _ _ _) as [text|e]; reflexivity.
Qed.

(** X4. When retrieval raises, or a retrieved passage has a [source] that
    is not text, the main model is never asked: the trace ends with the
    retriever. The answer is the technical-error one, unless the retriever
    raised an exception whose text cannot be printed. *)
Theorem rag_failure_stops_before_generation
    (self : RAGBackend) (c : Chain) (query : str) (t : trace) :
  full_chain self = Some c ->
  strip query <> [] ->
  printable (firstn 50 query) = true ->
  router_reply (chain_llm_router c) t (route_prompt (strip query))
    = Ok (Some pertinente) ->
  (forall e,
     retriever_reply (chain_retriever c)
       (t ++ [CallRouter (route_prompt (strip query))]) (strip query) = Raise e ->
     get_response self query t
     = (if exn_printable e then Ok technical_error_response
        else Raise UnicodeEncodeError,
        t ++ [CallRouter (route_prompt (strip query)); CallRetriever (strip query)]))
  /\ (forall docs,
     retriever_reply (chain_retriever c)
       (t ++ [CallRouter (route_prompt (strip query))]) (strip query) = Ok docs ->
     forallb well_sourced docs = false ->
     get_response self query t
     = (Ok technical_error_response,
        t ++ [CallRouter (route_prompt (strip query)); CallRetriever (strip query)])).
Proof.
  intros F V P R. rewrite (get_response_run self c query t F V), P.
  rewrite (relevant_run self c (strip query) t R).
  unfold rag_chain_with_sources, invoke_retriever, invoke_llm, bind, lift, ret.
  cbn [routed_query]. rewrite <- !app_assoc. cbn [app].
  split.
  - now intros e ->.
  - intros docs -> W.
    destruct (format_docs_with_ids docs) as [context|e] eqn:Fm.
    + destruct docs as [|d ds]; [discriminate|].
      assert (d :: ds <> []) as NE by discriminate.
      rewrite (context_only_when_well_sourced (d :: ds) context NE Fm) in W.
      discriminate.
    + assert (e = TypeError) as ->; [|reflexivity].
      revert Fm. apply format_docs_raises_type_error.
Qed.

End BackendExtras.

(** ** Start-up, the status probe and reloading *)

Lemma load_regardless_of_backend (fs : FileSystem) (s s' s0 : RAGBackend) :
  _load_knowledge_scope fs s = Ok s' ->
  _load_knowledge_scope fs s0 = Ok (set_knowledge_scope s0 (knowledge_scope s')).
Proof.
  unfold _load_knowledge_scope, load_body, obind.
  destruct (fs scope_path) as [data|e].
  - destruct (py_get data scope_key (PyList [])) as [v|e]; simpl.
    + destruct (truthy v).
      * destruct (py_len v) as [n|e]; [now intros [= <-]|].
        destruct e; intros [= <-]; reflexivity.
      * now intros [= <-].
    + destruct e; intros [= <-]; reflexivity.
  - destruct e; intros [= <-]; reflexivity.
Qed.

Lemma build_with_models (self : RAGBackend) (m : LLM) (r : RouterLLM) :
  llm_main self = Some m ->
  llm_router self = Some r ->
  exists self',
    _build_chain_architecture self = Ok self' /\
    knowledge_scope self' = knowledge_scope self /\
    llm_main self' = Some m /\ llm_router self' = Some r.
Proof.
  intros Hm Hr. unfold _build_chain_architecture, build_chain.
  rewrite Hm, Hr. destruct (compression_retriever self); eexists;
    (split; [reflexivity|]); simpl; auto.
Qed.

(** X5. Whether start-up completes does not depend on the vector index: if
    it completes for one state of the index, it completes for every other
    (missing, empty, failing), with the same models and the same scope. *)
Theorem startup_independent_of_index
    (env : Env) (self : RAGBackend)
    (doc_count : outcome nat) (make_retriever : outcome Retriever) :
  __init__ env = Ok self ->
  exists self',
    __init__ (with_index env doc_count make_retriever) = Ok self' /\
    knowledge_scope self' = knowledge_scope self /\
    llm_main self' = llm_main self /\
    llm_router self' = llm_router self.
Proof.
  unfold __init__, _initialize_llms, obind. cbn [with_index env_make_llms env_files].
  destruct (env_make_llms env) as [[m r]|e]; [|discriminate].
  set (s0 := set_llms _ m r).
  destruct (_load_knowledge_scope (env_files env) (_initialize_retriever env s0))
    as [s2|e] eqn:L; [|discriminate].
  intros B.
  rewrite (load_regardless_of_backend _ _ _
             (_initialize_retriever (with_index env doc_count make_retriever) s0) L).
  destruct (initialize_retriever_keeps_llms
              (with_index env doc_count make_retriever) s0) as [Im Ir].
  destruct (build_with_models
              (set_knowledge_scope
                 (_initialize_retriever (with_index env doc_count make_retriever) s0)
                 (knowledge_scope s2)) m r)
    as (self' & B' & Ks & Km & Kr); [exact Im|exact Ir|].
  exists self'. split; [exact B'|].
  destruct (build_keeps_scope _ _ B) as (Ks2 & Km2 & Kr2).
  destruct (load_keeps_components _ _ _ L) as (Hm & Hr & _ & _).
  destruct (initialize_retriever_keeps_llms env s0) as [Jm Jr].
  rewrite Ks, Km, Kr, Ks2, Km2, Kr2, Hm, Hr, Jm, Jr. repeat split.
Qed.

(** X6. A scope file that parses but has the wrong shape aborts start-up:
    a document that is not an object raises [AttributeError], and an
    object whose [scope] is a non-zero number or [true] raises
    [TypeError]; neither falls back to the default list. *)
Theorem startup_aborts_on_misshapen_scope
    (env : Env) (m : LLM) (r : RouterLLM) (data : pyval) :
  env_make_llms env = Ok (m, r) ->
  env_files env scope_path = Ok data ->
  ((forall d, data <> PyDict d) -> __init__ env = Raise AttributeError) /\
  (forall d v,
     data = PyDict d ->
     dict_find d scope_key = Some v ->
     truthy v = true ->
     py_len v = Raise TypeError ->
     __init__ env = Raise TypeError).
Proof.
  intros E Fd. unfold __init__, _initialize_llms, obind. rewrite E.
  unfold _load_knowledge_scope, load_body, obind. rewrite Fd. split.
  - intros N. destruct data; try reflexivity. now contradiction (N d).
  - intros d v -> Fv T L. cbn [py_get].
    rewrite (dict_get_find d scope_key (PyList []) v Fv).
    cbn [set_knowledge_scope knowledge_scope]. now rewrite T, L.
Qed.

(** X7. Right after a start-up that completed, the status probe always
    gives the full report: both models available, the chain available
    exactly when the retriever is, status "operational" with a retriever
    and "degraded" without; with an unusable index it is "degraded" with a
    document count of 0, and the count is not asked for. *)
Theorem status_after_startup (env : Env) (self : RAGBackend) (count : outcome nat) :
  __init__ env = Ok self ->
  exists r,
    get_system_status count self = StatusReported r /\
    llm_main_available r = true /\
    llm_router_available r = true /\
    chain_available r = retriever_available r /\
    status r = (if retriever_available r then operational else degraded) /\
    (index_unusable env ->
     status r = degraded /\ document_count r = 0%Z /\
     get_system_status count self = get_system_status (Ok 0) self).
Proof.
  intros I.
  destruct (init_models_and_scope env self I) as (Hm & Hr & n & Hn).
  pose proof (init_chain_iff_retriever env self I) as CR.
  unfold get_system_status. rewrite Hn, Hm, Hr. eexists. split; [reflexivity|].
  cbn [llm_main_available llm_router_available chain_available
       retriever_available status document_count andb].
  assert (is_some (full_chain self) = is_some (compression_retriever self)) as EQ.
  { destruct CR as [CR1 CR2].
    destruct (compression_retriever self) as [rv|].
    - destruct (full_chain self); [reflexivity|]. now specialize (CR1 eq_refl).
    - now rewrite (CR2 eq_refl). }
  rewrite EQ. split; [reflexivity|split; [reflexivity|split; [reflexivity|split]]].
  - now destruct (compression_retriever self).
  - intros U. rewrite (index_unusable_no_retriever env self I U).
    repeat split.
Qed.

(** X8. A count that fails when the probe asks for it does not degrade the
    status: with a retriever in place the report says "operational" with a
    document count of -1. *)
Theorem status_survives_count_failure
    (env : Env) (self : RAGBackend) (rv : Retriever) (e : exn) :
  __init__ env = Ok self ->
  compression_retriever self = Some rv ->
  exists r,
    get_system_status (Raise e) self = StatusReported r /\
    status r = operational /\
    document_count r = (-1)%Z.
Proof.
  intros I C.
  destruct (init_models_and_scope env self I) as (Hm & Hr & n & Hn).
  pose proof (init_chain_iff_retriever env self I) as CR.
  unfold get_system_status. rewrite Hn, Hm, Hr, C. eexists. split; [reflexivity|].
  cbn [status document_count andb is_some]. split; [|reflexivity].
  destruct (full_chain self); [reflexivity|].
  rewrite (proj1 CR eq_refl) in C. discriminate.
Qed.

(** X9. Reloading accepts a [scope] that has no length (JSON [null], a
    number, [true] or [false]): the assignment stays although the reload
    reports an error, and from then on the status probe answers
    [{"status": "error"}]. *)
Theorem status_fails_after_unsized_reload
    (fs : FileSystem) (self : RAGBackend) (path : str)
    (d : list (str * pyval)) (v : pyval) (e : exn) (count : outcome nat) :
  fs path = Ok (PyDict d) ->
  dict_find d scope_key = Some v ->
  py_len v = Raise e ->
  knowledge_scope (reload_knowledge_scope fs self path) = v /\
  get_system_status count (reload_knowledge_scope fs self path) = StatusFailed e.
Proof.
  intros Fd Fv L.
  assert (knowledge_scope (reload_knowledge_scope fs self path) = v) as K.
  { unfold reload_knowledge_scope. rewrite Fd. cbn [py_get].
    rewrite (dict_get_find d scope_key (PyList []) v Fv).
    cbn [set_knowledge_scope knowledge_scope]. destruct (py_len v); reflexivity. }
  split; [exact K|].
  unfold get_system_status. now rewrite K, L.
Qed.

(** X10. The connection test never raises. It answers [False] without
    asking anyone when there is no main model; [False] after the main
    model alone when that raised; otherwise [True], unless a retriever is
    present and raises on the query "test". *)
Theorem test_connection_report (self : RAGBackend) (t : trace) :
  (llm_main self = None -> test_connection self t = (Ok false, t)) /\
  (forall m e,
     llm_main self = Some m ->
     llm_reply m t (utf8 "Test di connessione.") = Raise e ->
     test_connection self t
       = (Ok false, t ++ [CallMain (utf8 "Test di connessione.")])) /\
  (forall m text,
     llm_main self = Some m ->
     llm_reply m t (utf8 "Test di connessione.") = Ok text ->
     compression_retriever self = None ->
     test_connection self t
       = (Ok true, t ++ [CallMain (utf8 "Test di connessione.")])) /\
  (forall m text rv,
     llm_main self = Some m ->
     llm_reply m t (utf8 "Test di connessione.") = Ok text ->
     compression_retriever self = Some rv ->
     test_connection self t
       = (match retriever_reply rv
                  (t ++ [CallMain (utf8 "Test di connessione.")]) (utf8 "test") with
          | Ok _ => Ok true
          | Raise _ => Ok false
          end,
          t ++ [CallMain (utf8 "Test di connessione.");
                CallRetriever (utf8 "test")])).
Proof.
  unfold test_connection, try_except, bind, invoke_llm, invoke_retriever, ret, raise.
  split; [|split; [|split]].
  - now intros ->.
  - now intros m e -> ->.
  - now intros m text -> -> ->.
  - intros m text rv -> -> ->. rewrite <- app_assoc. cbn [app].
    destruct (retriever_reply rv _ _); reflexivity.
Qed.

Section ReloadExtras.

Context {rt : Runtime}.

Lemma refused_run (self : RAGBackend) (c : Chain) (query : str) (t : trace) :
  fst (classification_chain c query t) = Ok non_pertinente ->
  invoke_full_chain self c query t
  = intelligent_refusal_chain self c
      {| routed_destination := non_pertinente; routed_query := query |}
      (t ++ [CallRouter (route_prompt query)]).
Proof.
  intros R. unfold invoke_full_chain, bind.
  rewrite classification_run in *. cbn [fst] in R. rewrite R.
  unfold branch. cbn [routed_destination].
  replace (str_eqb non_pertinente pertinente) with false by reflexivity.
  replace (str_eqb non_pertinente conversazionale) with false by reflexivity.
  reflexivity.
Qed.

Lemma refused_replies (c : Chain) (query : str) (t : trace) :
  router_reply (chain_llm_router c) t (route_prompt query) = Ok None
  \/ router_reply (chain_llm_router c) t (route_prompt query)
     = Ok (Some non_pertinente) ->
  fst (classification_chain c query t) = Ok non_pertinente.
Proof.
  rewrite classification_run. cbn [fst]. now intros [->| ->].
Qed.

Lemma topics_formatted (self : RAGBackend) (topics : list str) :
  knowledge_scope self = PyList (map PyStr topics) ->
  topics <> [] ->
  _format_knowledge_scope self = Ok (bulleted_scope topics).
Proof.
  intros K NE. unfold _format_knowledge_scope. rewrite K.
  destruct topics as [|x xs] eqn:T; [contradiction|]. rewrite <- T.
  replace (truthy (PyList (map PyStr topics))) with true by now rewrite T.
  cbn [negb]. unfold py_slice_items, py_len, obind, bulleted_scope.
  rewrite firstn_map, length_map, bullets_of_topics.
  destruct (8 <? List.length topics); [reflexivity|now rewrite app_nil_r].
Qed.

Lemma reload_keeps_chain (fs : FileSystem) (self : RAGBackend) (path : str) :
  full_chain (reload_knowledge_scope fs self path) = full_chain self.
Proof.
  unfold reload_knowledge_scope. destruct (fs path) as [data|]; [|reflexivity].
  destruct (py_get data scope_key (PyList [])); [|reflexivity].
  cbn [set_knowledge_scope knowledge_scope]. destruct (py_len a); reflexivity.
Qed.

(** X11. A reload takes effect at once, with the chain built at start-up:
    the next query that is refused (the router gave no label, or the label
    [non_pertinente]) sends the main model a prompt that lists the reloaded
    topics. *)
Theorem reload_reaches_next_refusal
    (fs : FileSystem) (self : RAGBackend) (path : str)
    (d : list (str * pyval)) (topics : list str)
    (c : Chain) (query : str) (t : trace) :
  fs path = Ok (PyDict d) ->
  dict_find d scope_key = Some (PyList (map PyStr topics)) ->
  topics <> [] ->
  full_chain self = Some c ->
  strip query <> [] ->
  printable (firstn 50 query) = true ->
  router_reply (chain_llm_router c) t (route_prompt (strip query)) = Ok None
  \/ router_reply (chain_llm_router c) t (route_prompt (strip query))
     = Ok (Some non_pertinente) ->
  get_response (reload_knowledge_scope fs self path) query t
  = (match llm_reply (chain_llm_main c)
             (t ++ [CallRouter (route_prompt (strip query))])
             (refusal_prompt (strip query) (bulleted_scope topics)) with
     | Ok text => Ok {| answer := PyStr text; source_documents := PyList [] |}
     | Raise e =>
         if exn_printable e then Ok technical_error_response
         else Raise UnicodeEncodeError
     end,
     t ++ [CallRouter (route_prompt (strip query));
           CallMain (refusal_prompt (strip query) (bulleted_scope topics))]).
Proof.
  intros Fd Ft NE F V P R.
  assert (full_chain (reload_knowledge_scope fs self path) = Some c) as F'
    by now rewrite reload_keeps_chain.
  assert (knowledge_scope (reload_knowledge_scope fs self path)
          = PyList (map PyStr topics)) as K.
  { unfold reload_knowledge_scope. rewrite Fd. cbn [py_get].
    rewrite (dict_get_find d scope_key (PyList []) _ Ft).
    cbn [set_knowledge_scope knowledge_scope py_len]. reflexivity. }
  rewrite (get_response_run _ c query t F' V), P.
  rewrite (refused_run _ c (strip query) t (refused_replies c _ t R)).
  unfold intelligent_refusal_chain, invoke_llm, bind, lift, ret.
  rewrite (topics_formatted _ topics K NE). cbn [routed_query].
  rewrite <- app_assoc. cbn [app].
  destruct (llm_reply _ _ _); reflexivity.
Qed.

(** X12. A reload also accepts a [scope] that can be neither sliced nor
    iterated (a non-zero number, [true], a non-empty object): afterwards
    every refused query (no label, or the label [non_pertinente]) ends in
    the technical-error answer, and the main model is not asked. *)
Theorem reload_can_break_refusals
    (fs : FileSystem) (self : RAGBackend) (path : str)
    (d : list (str * pyval)) (v : pyval)
    (c : Chain) (query : str) (t : trace) :
  fs path = Ok (PyDict d) ->
  dict_find d scope_key = Some v ->
  truthy v = true ->
  (forall l, v <> PyList l) ->
  (forall s, v <> PyStr s) ->
  full_chain self = Some c ->
  strip query <> [] ->
  printable (firstn 50 query) = true ->
  router_reply (chain_llm_router c) t (route_prompt (strip query)) = Ok None
  \/ router_reply (chain_llm_router c) t (route_prompt (strip query))
     = Ok (Some non_pertinente) ->
  get_response (reload_knowledge_scope fs self path) query t
  = (Ok technical_error_response,
     t ++ [CallRouter (route_prompt (strip query))]).
Proof.
  intros Fd Fv T NL NS F V P R.
  assert (full_chain (reload_knowledge_scope fs self path) = Some c) as F'
    by now rewrite reload_keeps_chain.
  assert (knowledge_scope (reload_knowledge_scope fs self path) = v) as K.
  { unfold reload_knowledge_scope. rewrite Fd. cbn [py_get].
    rewrite (dict_get_find d scope_key (PyList []) _ Fv).
    cbn [set_knowledge_scope knowledge_scope]. destruct (py_len v); reflexivity. }
  rewrite (get_response_run _ c query t F' V), P.
  rewrite (refused_run _ c (strip query) t (refused_replies c _ t R)).
  unfold intelligent_refusal_chain, bind, lift, _format_knowledge_scope.
  rewrite K, T. cbn [negb].
  destruct v; try reflexivity;
    [now contradiction (NS s)|now contradiction (NL l)].
Qed.

End ReloadExtras.

(** * The chat window *)

Section ChatWindowProperties.

Context {rt : Runtime}.
Context {py : Interpreter}.

(** ** Sending a message *)

(** The worker hands on what the backend returned, and its own answer
    when the backend raised: the text of the only exception the backend
    lets through can always be printed. *)
Lemma get_ai_response_run (self : RAGBackend) (prompt : str) (t : trace) :
  _get_ai_response self prompt t
  = match get_response self prompt t with
    | (Ok r, t') => (Ok r, t')
    | (Raise _, t') => (Ok ui_failure_response, t')
    end.
Proof.
  unfold _get_ai_response, try_except.
  destruct (get_response self prompt t) as [[r|e] t'] eqn:G; [reflexivity|].
  apply get_response_raises_only_encode_error in G. now subst e.
Qed.

(** X13. The worker of the window never raises. It hands on what
    [get_response] returned; its own "problema tecnico" answer is used
    exactly when [get_response] raised, which it does only with the
    encoding error of its handler's [print]. *)
Theorem ui_worker_never_raises (self : RAGBackend) (prompt : str) (t : trace) :
  exists r t',
    _get_ai_response self prompt t = (Ok r, t') /\
    (get_response self prompt t = (Ok r, t')
     \/ (get_response self prompt t = (Raise UnicodeEncodeError, t')
         /\ r = ui_failure_response)).
Proof.
  rewrite get_ai_response_run.
  destruct (get_response self prompt t) as [[r|e] t'] eqn:G.
  - exists r, t'. split; [reflexivity|now left].
  - exists ui_failure_response, t'. split; [reflexivity|right].
    apply get_response_raises_only_encode_error in G. now subst e.
Qed.

Lemma user_bubble (prompt : str) :
  _add_message {| answer := PyStr prompt; source_documents := PyList [] |} user
  = Ok (SimpleMessage (PyStr prompt) user).
Proof. reflexivity. Qed.

(** X14. A blank entry adds no bubble and reaches no collaborator. Any
    other entry adds the stripped text as the user's bubble, then the
    worker's answer to that same text. When the first 50 characters of
    the stripped text can be printed, the chain is invoked on exactly what
    the user's bubble shows; when they cannot, no collaborator is
    reached. *)
Theorem send_message_turn (self : RAGBackend) (entry : str) (t : trace) :
  (strip entry = [] -> _on_send_message self entry t = (Ok [], t)) /\
  (strip entry <> [] ->
   exists r t',
     _get_ai_response self (strip entry) t = (Ok r, t') /\
     _on_send_message self entry t
       = (Ok [Ok (SimpleMessage (PyStr (strip entry)) user);
              _add_message r assistant], t') /\
     forall c,
       full_chain self = Some c ->
       t' = if printable (firstn 50 (strip entry))
            then snd (invoke_full_chain self c (strip entry) t)
            else t).
Proof.
  unfold _on_send_message. split.
  - now intros ->.
  - intros V.
    assert (exists r t', _get_ai_response self (strip entry) t = (Ok r, t'))
      as (r & t' & G).
    { rewrite get_ai_response_run.
      destruct (get_response self (strip entry) t) as [[r|e] t'];
        now eexists; eexists. }
    exists r, t'. split; [exact G|]. split.
    + destruct (strip entry) as [|x xs] eqn:S; [contradiction|].
      cbn [falsy_str]. unfold bind. rewrite G.
      now rewrite user_bubble.
    + intros c F.
      assert (strip (strip entry) <> []) as V' by now rewrite strip_idempotent.
      rewrite get_ai_response_run in G.
      rewrite (get_response_run self c (strip entry) t F V') in G.
      rewrite strip_idempotent in G.
      destruct (printable (firstn 50 (strip entry))).
      * destruct (invoke_full_chain self c (strip entry) t) as [[v|e] t2];
          [now injection G as _ <-|].
        destruct (exn_printable e); now injection G as _ <-.
      * now injection G as _ <-.
Qed.

(** ** Citation markers *)

Lemma strip_prefix_spec (prefix s r : str) :
  strip_prefix prefix s = Some r -> s = prefix ++ r.
Proof.
  revert s. induction prefix as [|p ps IH]; intros s; simpl.
  - now intros [= ->].
  - destruct s as [|c s']; [discriminate|].
    destruct (p =? c)%N eqn:E; [|discriminate].
    apply N.eqb_eq in E. subst c. intros H. now rewrite (IH _ H).
Qed.

Lemma digit_run_spec (s : str) :
  s = map fst (fst (digit_run s)) ++ snd (digit_run s).
Proof.
  induction s as [|c r IH]; [reflexivity|].
  simpl. destruct (digit_value c); [|reflexivity].
  destruct (digit_run r) as [ds rest]. simpl in *. now rewrite <- IH.
Qed.

Lemma match_marker_spec (s : str) (ds : list (char * nat)) :
  match_marker s = Some ds -> exists rest, s = marker_text ds ++ rest.
Proof.
  unfold match_marker, marker_text.
  destruct (strip_prefix marker_open s) as [r|] eqn:P; [|discriminate].
  apply strip_prefix_spec in P. subst s.
  pose proof (digit_run_spec r) as R.
  destruct (digit_run r) as [[|d ds'] [|c rest]]; try discriminate.
  destruct (c =? marker_close)%N eqn:E; [|discriminate].
  apply N.eqb_eq in E. subst c. intros [= <-]. exists rest.
  simpl in R. rewrite R. now rewrite <- !app_assoc.
Qed.

Lemma finditer_inside (x rest since : str) :
  finditer (x ++ rest) (List.length x) since = finditer rest 0 since.
Proof.
  induction x as [|c x IH]; [reflexivity|exact IH].
Qed.

Lemma finditer_at_marker (ds : list (char * nat)) (rest since : str) :
  match_marker (marker_text ds ++ rest) = Some ds ->
  finditer (marker_text ds ++ rest) 0 since
  = ((since, ds) :: fst (finditer rest 0 []), snd (finditer rest 0 [])).
Proof.
  intros Mm.
  assert (marker_text ds ++ rest
          = 91%N :: ((utf8 "doc-" ++ map fst ds ++ [marker_close]) ++ rest)) as E
    by reflexivity.
  rewrite E in *. cbn [finditer]. rewrite Mm.
  replace (5 + List.length ds)
    with (List.length (utf8 "doc-" ++ map fst ds ++ [marker_close])).
  - rewrite finditer_inside. now destruct (finditer rest 0 []).
  - rewrite !length_app, length_map. simpl. lia.
Qed.

Lemma finditer_reassembles (n : nat) :
  forall s since,
    List.length s <= n ->
    reassemble (fst (finditer s 0 since)) ++ snd (finditer s 0 since)
    = since ++ s.
Proof.
  induction n as [|n IH]; intros s since L.
  - destruct s; [|simpl in L; lia]. simpl. now rewrite app_nil_r.
  - destruct s as [|c r]; [simpl; now rewrite app_nil_r|].
    destruct (match_marker (c :: r)) as [ds|] eqn:Mm.
    + destruct (match_marker_spec _ _ Mm) as (rest & E). rewrite E in *.
      rewrite (finditer_at_marker ds rest since Mm). cbn [fst snd].
      unfold reassemble. cbn [map List.concat fst snd]. fold (reassemble (fst (finditer rest 0 []))).
      rewrite <- !app_assoc. f_equal. f_equal.
      rewrite (IH rest []); [reflexivity|].
      rewrite length_app in L. unfold marker_text in L.
      rewrite length_app in L. simpl in L. lia.
    + cbn [finditer]. rewrite Mm.
      rewrite (IH r (since ++ [c])); [now rewrite <- app_assoc|].
      simpl in L. lia.
Qed.

Lemma no_bracket_no_marker (c : char) (r : str) :
  c <> 91%N -> match_marker (c :: r) = None.
Proof.
  intros N. unfold match_marker.
  change marker_open with (91%N :: utf8 "doc-"). cbn [strip_prefix].
  destruct (91 =? c)%N eqn:E; [|reflexivity].
  apply N.eqb_eq in E. now subst c.
Qed.

Lemma finditer_plain (before s since : str) :
  Forall (fun c => c <> 91%N) before ->
  finditer (before ++ s) 0 since = finditer s 0 (since ++ before).
Proof.
  intros P. revert since. induction P as [|c r Hc _ IH]; intros since.
  - now rewrite app_nil_r.
  - cbn [app finditer]. rewrite (no_bracket_no_marker c _ Hc).
    rewrite IH. now rewrite <- app_assoc.
Qed.

(** *** The loop over the matches *)

Lemma citation_loop_shift (matches : list (str * list (char * nat)))
    (sources : pyval) :
  forall acc,
    citation_loop matches sources acc
    = obind (citation_loop matches sources []) (fun ops => Ok (acc ++ ops)).
Proof.
  induction matches as [|[since ds] rest IH]; intros acc.
  - simpl. now rewrite app_nil_r.
  - cbn [citation_loop]. unfold obind at 1 2 4 5.
    destruct (py_int ds) as [n|e]; [|reflexivity].
    destruct (citation_target sources n) as [[b|]|e]; [| |reflexivity].
    + rewrite (IH ((acc ++ [InsertText since]) ++ [b])).
      rewrite (IH (([] ++ [InsertText since]) ++ [b])).
      destruct (citation_loop rest sources []); simpl; [|reflexivity].
      now rewrite <- !app_assoc.
    + rewrite (IH ((acc ++ [InsertText since]) ++ [InsertText (marker_text ds)])).
      rewrite (IH (([] ++ [InsertText since]) ++ [InsertText (marker_text ds)])).
      destruct (citation_loop rest sources []); simpl; [|reflexivity].
      now rewrite <- !app_assoc.
Qed.

Lemma citation_target_docs (docs : list Document) (n : nat) :
  citation_target (PyList (map doc_to_py docs)) n
  = Ok (match n with
        | O => None
        | S i =>
            match nth_error docs i with
            | Some doc =>
                Some (CitationButton (i + 1) (page_content doc)
                        (dict_get (metadata doc) (utf8 "source")
                           (PyStr (utf8 "Fonte sconosciuta"))))
            | None => None
            end
        end).
Proof.
  destruct n as [|i]; [reflexivity|].
  unfold citation_target, py_len, py_item, obind. rewrite length_map.
  destruct (i <? List.length docs) eqn:L.
  - apply Nat.ltb_lt in L. rewrite nth_error_map.
    destruct (nth_error docs i) as [doc|] eqn:E; [reflexivity|].
    apply nth_error_None in E. lia.
  - apply Nat.ltb_ge in L.
    now rewrite (proj2 (nth_error_None docs i) L).
Qed.

Lemma citation_target_opens (docs : list Document) (n : nat) (b : widget_op) :
  citation_target (PyList (map doc_to_py docs)) n = Ok (Some b) -> opens docs b.
Proof.
  rewrite citation_target_docs. destruct n as [|i]; [discriminate|].
  destruct (nth_error docs i) as [doc|] eqn:E; [|discriminate].
  intros [= <-]. simpl. split.
  - assert (i < List.length docs) by (apply nth_error_Some; congruence). lia.
  - exists doc. replace (i + 1 - 1) with i by lia. auto.
Qed.

Lemma citation_loop_opens (docs : list Document)
    (matches : list (str * list (char * nat))) :
  forall acc ops,
    Forall (opens docs) acc ->
    citation_loop matches (PyList (map doc_to_py docs)) acc = Ok ops ->
    Forall (opens docs) ops.
Proof.
  induction matches as [|[since ds] rest IH]; intros acc ops A.
  - now intros [= <-].
  - cbn [citation_loop]. unfold obind.
    destruct (py_int ds) as [n|e]; [|discriminate].
    destruct (citation_target _ n) as [[b|]|e] eqn:T; [| |discriminate].
    + apply IH. apply Forall_app. split.
      * apply Forall_app. split; [exact A|now repeat constructor].
      * constructor; [|constructor]. eapply citation_target_opens; eauto.
    + apply IH. apply Forall_app. split.
      * apply Forall_app. split; [exact A|now repeat constructor].
      * now repeat constructor.
Qed.

(** X15. With a list of passages as evidence, every citation button the
    window creates is numbered within the list and opens the passage at
    that position (its content and its source); a marker whose number is
    0 or beyond the list never becomes a button. *)
Theorem citations_resolve_in_range
    (text : str) (docs : list Document) (ops : list widget_op) :
  _create_message_with_sources text (PyList (map doc_to_py docs)) = Ok ops ->
  forall n content meta,
    In (CitationButton n content meta) ops ->
    1 <= n <= List.length docs /\
    exists doc,
      nth_error docs (n - 1) = Some doc /\
      content = page_content doc /\
      meta = dict_get (metadata doc) (utf8 "source")
               (PyStr (utf8 "Fonte sconosciuta")).
Proof.
  unfold _create_message_with_sources.
  destruct (finditer text 0 []) as [matches tail]. unfold obind.
  destruct (citation_loop matches _ []) as [ops0|e] eqn:L; [|discriminate].
  intros [= <-] n content meta I.
  assert (Forall (opens docs) (ops0 ++ [InsertText tail])) as A.
  { apply Forall_app. split; [|now repeat constructor].
    eapply citation_loop_opens; [|exact L]. constructor. }
  rewrite Forall_forall in A. exact (A _ I).
Qed.

(** *** Nothing is lost when no marker resolves *)

Lemma citation_target_is_button (sources : pyval) (n : nat) (s : str) :
  citation_target sources n <> Ok (Some (InsertText s)).
Proof.
  unfold citation_target, obind. destruct n as [|i]; [discriminate|].
  destruct (py_len sources) as [len|]; [|discriminate].
  destruct (i <? len); [|discriminate].
  destruct (py_item sources i) as [item|]; [|discriminate].
  destruct item; discriminate.
Qed.

Lemma citation_loop_plain (sources : pyval)
    (matches : list (str * list (char * nat))) :
  forall ops,
    citation_loop matches sources [] = Ok ops ->
    existsb is_button ops = false ->
    List.concat (map inserted ops) = reassemble matches.
Proof.
  induction matches as [|[since ds] rest IH]; intros ops.
  - now intros [= <-].
  - cbn [citation_loop]. unfold obind.
    destruct (py_int ds) as [n|e]; [|discriminate].
    destruct (citation_target sources n) as [[b|]|e] eqn:T; [| |discriminate];
      rewrite citation_loop_shift; unfold obind;
      destruct (citation_loop rest sources []) as [ops'|e] eqn:L;
      try discriminate; intros [= <-] NB.
    + destruct b as [s|n' c' m'].
      * apply citation_target_is_button in T. contradiction.
      * cbn [app existsb is_button orb] in NB. discriminate.
    + cbn [app existsb is_button orb] in *.
      unfold reassemble. cbn [map List.concat inserted fst snd].
      fold (reassemble rest). rewrite (IH ops' eq_refl NB).
      now rewrite <- app_assoc.
Qed.

(** X16. When the rendering creates no button (no marker in the text, or
    none whose number is within the evidence), the pieces of text it
    inserts are, joined in order, the answer itself: nothing is dropped or
    altered. *)
Theorem unresolved_citations_lose_no_text
    (text : str) (sources : pyval) (ops : list widget_op) :
  _create_message_with_sources text sources = Ok ops ->
  existsb is_button ops = false ->
  List.concat (map inserted ops) = text.
Proof.
  unfold _create_message_with_sources.
  pose proof (finditer_reassembles (List.length text) text [] (le_n _)) as R.
  destruct (finditer text 0 []) as [matches tail]. unfold obind.
  destruct (citation_loop matches sources []) as [ops0|e] eqn:L; [|discriminate].
  intros [= <-] NB. rewrite existsb_app in NB.
  apply orb_false_iff in NB. destruct NB as [NB _].
  rewrite map_app, concat_app. cbn [map List.concat inserted].
  rewrite (citation_loop_plain sources matches ops0 L NB), app_nil_r.
  exact R.
Qed.

End ChatWindowProperties.

(** ** The backend's labels, read back by the window *)

Section LabelRoundTrip.

Context {py : Interpreter}.

Lemma read_digits_text (s : str) : map fst (read_digits s) = s.
Proof.
  unfold read_digits. rewrite map_map. simpl. apply map_id.
Qed.

Lemma uint_digit_run (d : Decimal.uint) (rest : str) :
  digit_run (uint_str d ++ marker_close :: rest)
  = (read_digits (uint_str d), marker_close :: rest).
Proof.
  induction d; [reflexivity|..];
    unfold uint_str, ascii_str in *; cbn [DecimalString.NilEmpty.string_of_uint
      list_ascii_of_string map app digit_run read_digits];
    unfold read_digits in IHd; rewrite IHd; reflexivity.
Qed.

Lemma uint_value (d : Decimal.uint) :
  forall acc,
    fold_left (fun acc d => 10 * acc + snd d) (read_digits (uint_str d)) acc
    = Nat.of_uint_acc d acc.
Proof.
  induction d; intros acc; [reflexivity|..];
    unfold uint_str, ascii_str, read_digits in *;
    cbn [DecimalString.NilEmpty.string_of_uint list_ascii_of_string map
         fold_left Nat.of_uint_acc snd];
    rewrite IHd, Nat.tail_mul_spec; f_equal; cbn; lia.
Qed.

Lemma decimal_value (n : nat) :
  fold_left (fun acc d => 10 * acc + snd d) (read_digits (decimal n)) 0 = n.
Proof.
  unfold decimal. fold (uint_str (Nat.to_uint n)). rewrite uint_value.
  apply DecimalNat.Unsigned.of_to.
Qed.

Lemma decimal_not_empty (n : nat) : read_digits (decimal n) <> [].
Proof.
  intros E. pose proof (decimal_value n) as V. rewrite E in V. simpl in V.
  subst n. discriminate.
Qed.

Lemma strip_prefix_app (prefix s : str) :
  strip_prefix prefix (prefix ++ s) = Some s.
Proof.
  induction prefix as [|p ps IH]; [reflexivity|].
  simpl. now rewrite N.eqb_refl.
Qed.

Lemma doc_label_marker (n : nat) :
  doc_label n = marker_text (read_digits (decimal n)).
Proof.
  unfold doc_label, marker_text. now rewrite read_digits_text.
Qed.

Lemma doc_label_matches (n : nat) (rest : str) :
  match_marker (doc_label n ++ rest) = Some (read_digits (decimal n)).
Proof.
  unfold match_marker, doc_label.
  change (utf8 "[doc-") with marker_open. change (utf8 "]") with [marker_close].
  rewrite <- !app_assoc, strip_prefix_app. cbn [app].
  unfold decimal. fold (uint_str (Nat.to_uint n)). rewrite uint_digit_run.
  pose proof (decimal_not_empty n) as NE. unfold decimal in NE.
  fold (uint_str (Nat.to_uint n)) in NE.
  destruct (read_digits (uint_str (Nat.to_uint n))); [contradiction|].
  now rewrite N.eqb_refl.
Qed.

Lemma py_int_decimal (n : nat) :
  over_limit (List.length (decimal n)) = false ->
  py_int (read_digits (decimal n)) = Ok n.
Proof.
  intros Lim. unfold py_int.
  replace (List.length (read_digits (decimal n))) with (List.length (decimal n))
    by (unfold read_digits; now rewrite length_map).
  now rewrite Lim, decimal_value.
Qed.

(** X17. The marker the backend writes for the i-th passage is read back
    by the window as that passage: a text that carries [[doc-i]] after a
    stretch without brackets is rendered as that stretch, then a button
    numbered i that opens the i-th passage of the evidence, then the
    rendering of what follows. *)
Theorem backend_label_opens_its_passage
    (docs : list Document) (i : nat) (doc : Document) (before after : str) :
  Forall (fun c => c <> 91%N) before ->
  1 <= i ->
  nth_error docs (i - 1) = Some doc ->
  over_limit (List.length (decimal i)) = false ->
  _create_message_with_sources (before ++ doc_label i ++ after)
    (PyList (map doc_to_py docs))
  = obind (_create_message_with_sources after (PyList (map doc_to_py docs)))
      (fun ops =>
         Ok (InsertText before
             :: CitationButton i (page_content doc)
                  (dict_get (metadata doc) (utf8 "source")
                     (PyStr (utf8 "Fonte sconosciuta")))
             :: ops)).
Proof.
  intros P I Nd Lim. unfold _create_message_with_sources.
  rewrite (finditer_plain before (doc_label i ++ after) [] P). cbn [app].
  pose proof (doc_label_matches i after) as Mm.
  rewrite doc_label_marker in *.
  rewrite (finditer_at_marker _ after before Mm).
  destruct (finditer after 0 []) as [ms tail]. cbn [fst snd citation_loop app].
  rewrite (py_int_decimal i Lim). cbn [obind].
  rewrite citation_target_docs.
  destruct i as [|k]; [lia|]. replace (S k - 1) with k in Nd by lia.
  rewrite Nd. replace (k + 1) with (S k) by lia.
  cbn [obind]. rewrite (citation_loop_shift ms _ (_ :: _)). unfold obind.
  destruct (citation_loop ms _ []); reflexivity.
Qed.

End LabelRoundTrip.

(** * The scope file, truncation and indexing *)

(** ** [create_default_knowledge_scope_file] *)

Section ScopeFile.

Context {rt : Runtime}.

(** X18. On a disk without [knowledge_scope.json], a creation that
    completes writes the 15-topic document and touches no other path;
    start-up then loads those 15 topics instead of falling back, and a
    refusal lists the first 8 followed by "... e altri 7 argomenti
    correlati". *)
Theorem created_scope_file_is_loaded (disk : Disk) (self : RAGBackend) :
  disk scope_path = None ->
  (forall p, p <> scope_path ->
             create_default_knowledge_scope_file WriteCompletes disk p = disk p) /\
  _load_knowledge_scope
    (read_json (create_default_knowledge_scope_file WriteCompletes disk)) self
  = Ok (set_knowledge_scope self (PyList (map PyStr file_scope))) /\
  _format_knowledge_scope (set_knowledge_scope self (PyList (map PyStr file_scope)))
  = Ok (join nl (map topic_bullet (firstn 8 file_scope)) ++ more_suffix 7).
Proof.
  intros Ab. unfold create_default_knowledge_scope_file. rewrite Ab.
  split; [|split].
  - intros p N. unfold disk_put. apply str_eqb_neq in N. now rewrite N.
  - unfold _load_knowledge_scope, load_body, read_json, disk_put, obind.
    now rewrite str_eqb_refl.
  - apply (topics_formatted
             (set_knowledge_scope self (PyList (map PyStr file_scope))) file_scope);
      [reflexivity|discriminate].
Qed.

End ScopeFile.

(** X19. The creation never touches a path that already holds something;
    so a write that broke off leaves a file that no later run repairs.
    When the file was cut between two characters, every loading of the
    scope over it falls back to the built-in default list; when it was cut
    inside a character, the loading raises [UnicodeDecodeError] and
    start-up aborts. *)
Theorem broken_scope_file_is_never_repaired
    (disk : Disk) (inside_character : bool) (later : write_attempt)
    (self : RAGBackend) :
  disk scope_path = None ->
  (forall d entry,
      d scope_path = Some entry ->
      create_default_knowledge_scope_file later d = d) /\
  create_default_knowledge_scope_file later
    (create_default_knowledge_scope_file (WriteBreaksOff inside_character) disk)
  = create_default_knowledge_scope_file (WriteBreaksOff inside_character) disk /\
  _load_knowledge_scope
    (read_json
       (create_default_knowledge_scope_file later
          (create_default_knowledge_scope_file
             (WriteBreaksOff inside_character) disk))) self
  = (if inside_character then Raise UnicodeDecodeError
     else Ok (_create_default_knowledge_scope self)) /\
  (forall env m r,
      env_make_llms env = Ok (m, r) ->
      env_files env
      = read_json
          (create_default_knowledge_scope_file later
             (create_default_knowledge_scope_file (WriteBreaksOff true) disk)) ->
      __init__ env = Raise UnicodeDecodeError).
Proof.
  intros Ab.
  assert (forall d entry, d scope_path = Some entry ->
                          create_default_knowledge_scope_file later d = d) as Keep.
  { intros d entry E. unfold create_default_knowledge_scope_file. now rewrite E. }
  assert (forall inside,
             create_default_knowledge_scope_file (WriteBreaksOff inside) disk
               scope_path
             = Some (truncated inside)) as Br.
  { intros inside. unfold create_default_knowledge_scope_file, disk_put.
    now rewrite Ab, str_eqb_refl. }
  split; [exact Keep|]. rewrite (Keep _ _ (Br inside_character)).
  split; [reflexivity|]. split.
  - unfold _load_knowledge_scope, load_body, read_json, obind.
    rewrite Br. now destruct inside_character.
  - intros env m r E Fs. rewrite (Keep _ _ (Br true)) in Fs.
    unfold __init__, _initialize_llms, obind. rewrite E, Fs.
    unfold _load_knowledge_scope, load_body, read_json, obind.
    now rewrite Br.
Qed.

(** ** [truncate_text] *)

Lemma slice_to_length (s : str) (k : Z) :
  (0 <= k <= Z.of_nat (List.length s))%Z ->
  Z.of_nat (List.length (py_slice_to s k)) = k.
Proof.
  intros B. unfold py_slice_to.
  destruct (k <? 0)%Z eqn:E; [apply Z.ltb_lt in E; lia|].
  rewrite length_firstn. lia.
Qed.

Lemma truncate_text_bounds (text : str) (max_length : Z) (suffix : str) :
  (Z.of_nat (List.length suffix) <= max_length)%Z ->
  (Z.of_nat (List.length (truncate_text text max_length suffix)) <= max_length)%Z.
Proof.
  intros S. unfold truncate_text.
  destruct (Z.of_nat (List.length text) <=? max_length)%Z eqn:E.
  - now apply Z.leb_le in E.
  - apply Z.leb_gt in E. rewrite length_app.
    pose proof (slice_to_length text (max_length - Z.of_nat (List.length suffix))).
    lia.
Qed.

(** X20. When the limit is at least as long as the suffix, the result
    never exceeds the limit: a text within the limit is returned as it is,
    and a longer one becomes its first [max_length - len(suffix)]
    characters followed by the suffix, exactly [max_length] long. *)
Theorem truncate_text_fits (text : str) (max_length : Z) (suffix : str) :
  (Z.of_nat (List.length suffix) <= max_length)%Z ->
  (Z.of_nat (List.length (truncate_text text max_length suffix)) <= max_length)%Z /\
  ((Z.of_nat (List.length text) <= max_length)%Z ->
   truncate_text text max_length suffix = text) /\
  ((max_length < Z.of_nat (List.length text))%Z ->
   truncate_text text max_length suffix
   = firstn (Z.to_nat max_length - List.length suffix) text ++ suffix /\
   Z.of_nat (List.length (truncate_text text max_length suffix)) = max_length).
Proof.
  intros S. unfold truncate_text.
  destruct (Z.of_nat (List.length text) <=? max_length)%Z eqn:E.
  - apply Z.leb_le in E. split; [exact E|]. split; [reflexivity|lia].
  - apply Z.leb_gt in E.
    assert (py_slice_to text (max_length - Z.of_nat (List.length suffix))
            = firstn (Z.to_nat max_length - List.length suffix) text) as Sl.
    { unfold py_slice_to.
      destruct (max_length - Z.of_nat (List.length suffix) <? 0)%Z eqn:N;
        [apply Z.ltb_lt in N; lia|].
      f_equal. lia. }
    rewrite Sl, length_app, length_firstn.
    split; [lia|]. split; [lia|]. intros _. split; [reflexivity|lia].
Qed.

(** X21. Under the same condition, truncating twice is truncating once. *)
Theorem truncate_text_idempotent (text : str) (max_length : Z) (suffix : str) :
  (Z.of_nat (List.length suffix) <= max_length)%Z ->
  truncate_text (truncate_text text max_length suffix) max_length suffix
  = truncate_text text max_length suffix.
Proof.
  intros S.
  pose proof (truncate_text_bounds text max_length suffix S) as B.
  unfold truncate_text at 1.
  apply Z.leb_le in B. now rewrite B.
Qed.

(** X22. When the limit is shorter than the suffix, a text longer than the
    limit comes back longer than the limit: the slice bound is negative,
    so the text loses only its last [len(suffix) - max_length] characters
    before the whole suffix is appended. *)
Theorem truncate_text_overruns_short_limit
    (text : str) (max_length : Z) (suffix : str) :
  (max_length < Z.of_nat (List.length suffix))%Z ->
  (max_length < Z.of_nat (List.length text))%Z ->
  truncate_text text max_length suffix
  = firstn (Z.to_nat (Z.of_nat (List.length text) + max_length
                      - Z.of_nat (List.length suffix))) text ++ suffix /\
  (max_length < Z.of_nat (List.length (truncate_text text max_length suffix)))%Z.
Proof.
  intros S L. unfold truncate_text.
  assert ((Z.of_nat (List.length text) <=? max_length)%Z = false) as ->
    by (apply Z.leb_gt; exact L).
  unfold py_slice_to.
  assert ((max_length - Z.of_nat (List.length suffix) <? 0)%Z = true) as ->
    by (apply Z.ltb_lt; lia).
  split.
  - do 2 f_equal. lia.
  - rewrite length_app. lia.
Qed.

(** ** [create_vector_db] *)

(** X23. Without documents nothing is built. If [DATASET] is missing the
    run has no effect at all; if it is there but holds no PDF, the only
    effect is that an existing index has been deleted: the analyzer is not
    asked, no scope file is written and no new index is stored. *)
Theorem ingest_builds_nothing_without_documents (env : IngestEnv) :
  (data_exists env = false -> create_vector_db env = (Ok tt, [])) /\
  (data_exists env = true ->
   ingest_load env = Ok [] ->
   (db_exists env = false -> create_vector_db env = (Ok tt, [])) /\
   (db_exists env = true ->
    ingest_rmtree env = Ok tt ->
    create_vector_db env = (Ok tt, [RemovedIndex]))).
Proof.
  unfold create_vector_db. split.
  - now intros ->.
  - intros -> L. cbn [negb]. split.
    + intros ->. now rewrite L.
    + intros -> ->. now rewrite L.
Qed.

Lemma split_documents_shift (split : str -> outcome (list str))
    (documents : list Document) :
  forall acc,
    split_documents split documents acc
    = obind (split_documents split documents []) (fun chunks => Ok (acc ++ chunks)).
Proof.
  induction documents as [|doc rest IH]; intros acc.
  - simpl. now rewrite app_nil_r.
  - cbn [split_documents]. destruct (split (page_content doc)) as [texts|e];
      [|reflexivity].
    rewrite (IH (acc ++ chunks_of doc texts)), (IH ([] ++ chunks_of doc texts)).
    destruct (split_documents split rest []); simpl; [|reflexivity].
    now rewrite <- app_assoc.
Qed.

Lemma split_documents_sources (split : str -> outcome (list str))
    (documents : list Document) :
  forall chunks,
    split_documents split documents [] = Ok chunks ->
    Forall (from_document split documents) chunks.
Proof.
  induction documents as [|doc rest IH]; intros chunks.
  - intros [= <-]. constructor.
  - cbn [split_documents]. destruct (split (page_content doc)) as [texts|e] eqn:S;
      [|discriminate].
    rewrite split_documents_shift. unfold obind.
    destruct (split_documents split rest []) as [more|e] eqn:R; [|discriminate].
    intros [= <-]. cbn [app]. apply Forall_app. split.
    + unfold chunks_of. apply Forall_forall. intros ch I.
      apply in_map_iff in I. destruct I as (text & <- & It).
      exists doc, texts. simpl. auto.
    + specialize (IH more eq_refl). rewrite Forall_forall in *.
      intros ch I. destruct (IH ch I) as (d & ts & Id & Sd & It & Md).
      exists d, ts. simpl. auto.
Qed.


(** X24. What is stored is made of the loaded documents only: every chunk
    of the new index carries the metadata (hence the [source]) of the
    document whose text it was split from. *)
Theorem stored_chunks_keep_their_source
    (env : IngestEnv) (effects : list ingest_effect) (result : outcome unit)
    (all_chunks : list Document) :
  create_vector_db env = (result, effects) ->
  In (StoredIndex all_chunks) effects ->
  exists documents,
    ingest_load env = Ok documents /\
    Forall (from_document (ingest_split env) documents) all_chunks.
Proof.
  unfold create_vector_db.
  destruct (negb (data_exists env)); [intros [= <- <-] []|].
  destruct (if db_exists env then ingest_rmtree env else Ok tt);
    [|intros [= <- <-] []].
  set (removed := if db_exists env then [RemovedIndex] else []).
  assert (forall x, In (StoredIndex x) (removed ++ nil) -> False) as NoR.
  { intros x. rewrite app_nil_r. unfold removed.
    destruct (db_exists env); simpl; intuition discriminate. }
  destruct (ingest_load env) as [documents|e].
  2:{ intros [= <- <-] I. exfalso. apply (NoR all_chunks). now rewrite app_nil_r. }
  destruct documents as [|d ds].
  { intros [= <- <-] I. exfalso. apply (NoR all_chunks). now rewrite app_nil_r. }
  assert (forall x, In (StoredIndex x) (removed ++ extract_scope env (d :: ds))
                    -> False) as NoE.
  { intros x I. apply in_app_or in I. destruct I as [I|I].
    - apply (NoR x). now rewrite app_nil_r.
    - unfold extract_scope in I.
      destruct (ingest_analyze env _); [destruct (ingest_write env)|];
        simpl in I; intuition discriminate. }
  destruct (ingest_embeddings env); [|intros [= <- <-] I; now destruct (NoE _ I)].
  destruct (split_documents (ingest_split env) (d :: ds) []) as [chunks|e] eqn:Sp;
    [|intros [= <- <-] I; now destruct (NoE _ I)].
  destruct (ingest_store env chunks); [|intros [= <- <-] I; now destruct (NoE _ I)].
  intros [= <- <-] I. apply in_app_or in I. destruct I as [I|I];
    [now destruct (NoE _ I)|].
  destruct I as [[= <-]|[]].
  exists (d :: ds). split; [reflexivity|].
  now apply split_documents_sources.
Qed.


(** X1. The analyzer sees at most 8000 characters, taken from the first
    five documents only: documents beyond the fifth never change the
    sample. *)
Theorem text_sample_is_bounded (documents more : list Document) :
  List.length (full_text_sample documents) <= N.to_nat 8000 /\
  (5 <= List.length documents ->
   full_text_sample (documents ++ more) = full_text_sample documents).
Proof.
  unfold full_text_sample. split.
  - apply firstn_le_length.
  - intros L. rewrite firstn_app.
    replace (5 - List.length documents) with 0 by lia.
    now rewrite app_nil_r.
Qed.

(** * Concrete instances *)

Lemma evidence_only_when_relevant_witness :
  (forall r t2,
     Sample.get_response (Sample.backend (Ok (Some conversazionale)))
       (utf8 "Ciao, come stai?") [] = (Ok r, t2) ->
     source_documents r = PyList []) /\
  exists suffix,
    snd (Sample.get_response (Sample.backend (Ok (Some conversazionale)))
           (utf8 "Ciao, come stai?") []) = [] ++ suffix
    /\ no_retrieval suffix.
Proof.
  destruct (evidence_only_when_relevant (rt := Sample.runtime)
              (Sample.backend (Ok (Some conversazionale)))
              (Sample.chain (Ok (Some conversazionale)))
              (utf8 "Ciao, come stai?") [] eq_refl)
    as (A & _).
  - vm_compute. discriminate.
  - eapply A; [rewrite classification_run; reflexivity|left; reflexivity].
Defined.

Lemma classification_is_closed_witness :
  fst (classification_chain (Sample.chain (Ok None))
         (strip (utf8 " Chi ha vinto il mondiale di calcio? ")) [])
  = Ok non_pertinente.
Proof.
  assert (strip (utf8 " Chi ha vinto il mondiale di calcio? ") <> []) as V
    by (vm_compute; discriminate).
  exact (proj1 (proj2 (classification_is_closed (rt := Sample.runtime)
                         (Sample.backend (Ok None)) (Sample.chain (Ok None))
                         (utf8 " Chi ha vinto il mondiale di calcio? ") []
                         eq_refl V))
               eq_refl).
Defined.

(** A label outside the three literals is not coerced to [non_pertinente]:
    classification raises, and the caller sees the technical-error
    answer. *)
Lemma out_of_set_label_not_coerced :
  fst (classification_chain (Sample.chain (Ok (Some (utf8 "sport"))))
         (utf8 "Chi ha vinto il mondiale di calcio?") [])
    = Raise (ValidationError (utf8 "sport")) /\
  (forall d,
      fst (classification_chain (Sample.chain (Ok (Some (utf8 "sport"))))
             (utf8 "Chi ha vinto il mondiale di calcio?") [])
      <> Ok d) /\
  fst (Sample.get_response (Sample.backend (Ok (Some (utf8 "sport"))))
         (utf8 "Chi ha vinto il mondiale di calcio?") [])
    = Ok technical_error_response.
Proof.
  split; [reflexivity|split; [|reflexivity]].
  intros d. rewrite classification_run. vm_compute. discriminate.
Qed.

(** The label is the first half of the escape pair of an emoji. *)
Lemma fail_soft_breaks_on_unprintable_error_witness :
  Sample.get_response (Sample.backend (Ok (Some [0xD83D%N])))
    (utf8 "Quali additivi sono ammessi?") []
  = (Raise UnicodeEncodeError,
     [CallRouter (route_prompt (utf8 "Quali additivi sono ammessi?"))]).
Proof.
  refine (fail_soft_breaks_on_unprintable_error (rt := Sample.runtime)
            (Sample.backend (Ok (Some [0xD83D%N])))
            (Sample.chain (Ok (Some [0xD83D%N])))
            (utf8 "Quali additivi sono ammessi?") [0xD83D%N] []
            eq_refl _ _ eq_refl eq_refl).
  - vm_compute. discriminate.
  - vm_compute. reflexivity.
Defined.

(** An exception whose text can be printed is answered with the
    technical-error result; so is a query whose own first characters
    cannot be printed, before any collaborator is reached. *)
Example printable_errors_are_answered :
  Sample.get_response (Sample.backend (Raise (OtherError (utf8 "timeout"))))
    (utf8 "Quali additivi sono ammessi?") []
  = (Ok technical_error_response,
     [CallRouter (route_prompt (utf8 "Quali additivi sono ammessi?"))]) /\
  Sample.get_response (Sample.backend (Ok (Some pertinente)))
    (utf8 "Quali additivi " ++ [0xD83D%N]) []
  = (Ok technical_error_response, []).
Proof. split; vm_compute; reflexivity. Qed.

Lemma invalid_query_short_circuits_witness :
  Sample.get_response (Sample.backend (Ok None)) (160%N :: utf8 "  ") []
  = (Ok invalid_query_response, []).
Proof.
  exact (proj1 (invalid_query_short_circuits (rt := Sample.runtime)
                  (Sample.backend (Ok None)) (160%N :: utf8 "  ") [] eq_refl)).
Defined.

Lemma unavailable_when_retriever_missing_witness :
  Sample.get_response Sample.degraded (utf8 "Quali additivi sono ammessi?") []
  = (Ok unavailable_response, []).
Proof.
  refine (proj1 (unavailable_when_retriever_missing (rt := Sample.runtime)
                   (Sample.env (Ok None) 0 Sample.no_file) Sample.degraded
                   (utf8 "Quali additivi sono ammessi?") [] eq_refl
                   (or_intror (or_intror (or_introl eq_refl))) _)).
  vm_compute. discriminate.
Defined.

Lemma citation_index_is_position_witness :
  exists blocks,
    format_docs_with_ids (rt := Sample.runtime)
      [Sample.nitrites; Sample.labelling] = Ok (join docs_separator blocks) /\
    nth_error blocks 1
      = Some (utf8 "Contenuto dal documento [doc-2] (Fonte sconosciuta):" ++ nl
                ++ utf8 "Etichettatura chiara e leggibile.").
Proof.
  destruct (citation_index_is_position (rt := Sample.runtime)
              [Sample.nitrites; Sample.labelling])
    as (blocks & F & _ & Nth & _).
  - discriminate.
  - reflexivity.
  - exists blocks. split; [exact F|].
    destruct (Nth 2 Sample.labelling (le_S 1 1 (le_n 1)) eq_refl)
      as (name & Sn & B).
    injection Sn as <-. exact B.
Defined.

Lemma normalize_response_shape_witness :
  _normalize_response (rt := Sample.runtime) (PyStr (utf8 "Ciao!"))
  = {| answer := PyStr (utf8 "Ciao!"); source_documents := PyList [] |}.
Proof.
  refine (proj2 (normalize_response_shape (rt := Sample.runtime) (PyStr (utf8 "Ciao!"))) _).
  intros d. discriminate.
Defined.

Lemma scope_rendering_witness :
  _format_knowledge_scope (rt := Sample.runtime)
    (Sample.with_scope (PyList (map PyStr Sample.ten_topics)))
  = Ok (bulleted_scope Sample.ten_topics).
Proof.
  refine (proj1 (proj2 (scope_rendering (rt := Sample.runtime)
                          (Sample.with_scope (PyList (map PyStr Sample.ten_topics)))
                          Sample.ten_topics eq_refl) _)).
  discriminate.
Defined.

Example ten_topics_rendered :
  bulleted_scope Sample.ten_topics
  = lines [ utf8 "• Normative alimentari europee";
            utf8 "• Regolamenti ministeriali italiani";
            utf8 "• Etichettatura prodotti alimentari";
            utf8 "• Sicurezza alimentare e HACCP";
            utf8 "• Additivi e conservanti autorizzati";
            utf8 "• Controlli sanitari e ispezioni";
            utf8 "• Certificazioni di qualità";
            utf8 "• Allergeni e intolleranze";
            utf8 "• ... e altri 2 argomenti correlati" ].
Proof. vm_compute. reflexivity. Qed.

(** The three routes end to end on the sample collaborators: a relevant
    query returns the retriever's passages in order after one call to each
    collaborator; small talk and a missing classification call the router
    and the main model only. *)
Example relevant_query_carries_evidence :
  Sample.get_response (Sample.backend (Ok (Some pertinente)))
    (utf8 " Qual è il limite massimo di nitriti consentito? ") []
  = (Ok {| answer := PyStr (utf8 "Risposta.");
           source_documents :=
             PyList [doc_to_py Sample.nitrites; doc_to_py Sample.labelling] |},
     [ CallRouter (route_prompt (utf8 "Qual è il limite massimo di nitriti consentito?"));
       CallRetriever (utf8 "Qual è il limite massimo di nitriti consentito?");
       CallMain
         (rag_prompt
            (join docs_separator
               [ utf8 "Contenuto dal documento [doc-1] (reg_1333.pdf):" ++ nl
                   ++ utf8 "Nitriti: limite 150 mg/kg.";
                 utf8 "Contenuto dal documento [doc-2] (Fonte sconosciuta):" ++ nl
                   ++ utf8 "Etichettatura chiara e leggibile." ])
            (utf8 "Qual è il limite massimo di nitriti consentito?")) ]).
Proof. reflexivity. Qed.

Example small_talk_skips_retrieval :
  Sample.get_response (Sample.backend (Ok (Some conversazionale)))
    (utf8 "Ciao, come stai?") []
  = (Ok {| answer := PyStr (utf8 "Risposta."); source_documents := PyList [] |},
     [ CallRouter (route_prompt (utf8 "Ciao, come stai?"));
       CallMain (conversational_prompt (utf8 "Ciao, come stai?")) ]).
Proof. reflexivity. Qed.

Example unclassified_query_is_refused :
  Sample.get_response (Sample.backend (Ok None))
    (utf8 "Chi ha vinto il mondiale di calcio?") []
  = (Ok {| answer := PyStr (utf8 "Risposta."); source_documents := PyList [] |},
     [ CallRouter (route_prompt (utf8 "Chi ha vinto il mondiale di calcio?"));
       CallMain
         (refusal_prompt (utf8 "Chi ha vinto il mondiale di calcio?")
            (join nl (map topic_bullet default_knowledge_scope))) ]).
Proof. reflexivity. Qed.

(** An empty scope is not rendered as a (possibly empty) list of bullets
    but as a fixed sentence. *)
Lemma empty_scope_is_not_bulleted :
  _format_knowledge_scope (rt := Sample.runtime) (Sample.with_scope (PyList []))
    = Ok no_scope_message /\
  _format_knowledge_scope (rt := Sample.runtime) (Sample.with_scope (PyList []))
    <> Ok (bulleted_scope []).
Proof. split; [reflexivity|vm_compute; discriminate]. Qed.

(** A scope file that holds a JSON array, or bytes cut inside a
    character, is not replaced by the default list: start-up fails. *)
Lemma malformed_scope_file_aborts_startup :
  __init__ (Sample.env (Ok None) 42 Sample.array_file) = Raise AttributeError /\
  __init__ (Sample.env (Ok None) 42
              (read_json (create_default_knowledge_scope_file
                            (WriteBreaksOff true) Sample.empty_disk)))
  = Raise UnicodeDecodeError /\
  (forall b, __init__ (Sample.env (Ok None) 42 Sample.array_file) <> Ok b) /\
  (forall b,
     __init__ (Sample.env (Ok None) 42
                 (read_json (create_default_knowledge_scope_file
                               (WriteBreaksOff true) Sample.empty_disk)))
     <> Ok b).
Proof.
  split; [reflexivity|]. split; [vm_compute; reflexivity|].
  split; intros b; vm_compute; discriminate.
Qed.

Lemma startup_scope_falls_back_witness :
  exists b,
    __init__ (Sample.env (Ok None) 42 Sample.corrupt_file) = Ok b /\
    knowledge_scope b = PyList (map PyStr default_knowledge_scope).
Proof.
  exact (proj2 (proj2 (proj2
           (startup_scope_falls_back
              (Sample.env (Ok None) 42 Sample.corrupt_file)
              (Sample.backend (Ok None))
              (or_intror (or_introl eq_refl)))))
           Sample.main (Sample.router (Ok None)) eq_refl).
Defined.

Lemma reload_never_defaults_witness :
  knowledge_scope
    (reload_knowledge_scope Sample.no_scope_key (Sample.backend (Ok None)) scope_path)
  = PyList [].
Proof.
  exact (proj1 (proj1 (proj2 (proj2
           (reload_never_defaults Sample.no_scope_key
              (Sample.backend (Ok None)) scope_path)))
           [(utf8 "topics", PyList [PyStr (utf8 "HACCP")])] eq_refl
           (or_introl eq_refl))).
Defined.

(** ** Instances of the further properties *)

Lemma rag_with_no_passages_witness :
  Sample.get_response
    (Sample.backend_with (Ok (Some pertinente)) Sample.silent_retriever)
    (utf8 "Limite dei nitriti?") []
  = (Ok {| answer := PyStr (utf8 "Risposta."); source_documents := PyList [] |},
     [ CallRouter (route_prompt (utf8 "Limite dei nitriti?"));
       CallRetriever (utf8 "Limite dei nitriti?");
       CallMain (rag_prompt no_docs_message (utf8 "Limite dei nitriti?")) ]).
Proof.
  refine (rag_with_no_passages (rt := Sample.runtime)
            (Sample.backend_with (Ok (Some pertinente)) Sample.silent_retriever)
            (Sample.chain_with (Ok (Some pertinente)) Sample.silent_retriever)
            (utf8 "Limite dei nitriti?") [] eq_refl _ _ eq_refl eq_refl).
  - vm_compute. discriminate.
  - vm_compute. reflexivity.
Defined.

Lemma rag_failure_stops_before_generation_witness :
  Sample.get_response
    (Sample.backend_with (Ok (Some pertinente)) Sample.failing_retriever)
    (utf8 "Limite dei nitriti?") []
  = (Ok technical_error_response,
     [ CallRouter (route_prompt (utf8 "Limite dei nitriti?"));
       CallRetriever (utf8 "Limite dei nitriti?") ]).
Proof.
  refine (proj1 (rag_failure_stops_before_generation (rt := Sample.runtime)
                   (Sample.backend_with (Ok (Some pertinente))
                      Sample.failing_retriever)
                   (Sample.chain_with (Ok (Some pertinente))
                      Sample.failing_retriever)
                   (utf8 "Limite dei nitriti?") [] eq_refl _ _ eq_refl)
            (OtherError (utf8 "ConnectionError")) eq_refl).
  - vm_compute. discriminate.
  - vm_compute. reflexivity.
Defined.

Lemma startup_independent_of_index_witness :
  exists self',
    __init__ (with_index (Sample.env (Ok None) 42 Sample.no_file)
                (Raise (OtherError (utf8 "no storage"))) (Ok Sample.retriever))
      = Ok self' /\
    knowledge_scope self' = PyList (map PyStr default_knowledge_scope).
Proof.
  destruct (startup_independent_of_index
              (Sample.env (Ok None) 42 Sample.no_file) (Sample.backend (Ok None))
              (Raise (OtherError (utf8 "no storage"))) (Ok Sample.retriever)
              eq_refl)
    as (self' & I & K & _).
  exists self'. split; [exact I|exact K].
Defined.

Lemma startup_aborts_on_misshapen_scope_witness :
  __init__ (Sample.env (Ok None) 42 Sample.array_file) = Raise AttributeError.
Proof.
  refine (proj1 (startup_aborts_on_misshapen_scope
                   (Sample.env (Ok None) 42 Sample.array_file)
                   Sample.main (Sample.router (Ok None))
                   (PyList [PyStr (utf8 "HACCP")]) eq_refl eq_refl) _).
  intros d. discriminate.
Defined.

Lemma status_after_startup_witness :
  exists r,
    get_system_status (Ok 42) Sample.degraded = StatusReported r /\
    status r = degraded /\ document_count r = 0%Z.
Proof.
  destruct (status_after_startup
              (Sample.env (Ok None) 0 Sample.no_file) Sample.degraded (Ok 42)
              eq_refl)
    as (r & S & _ & _ & _ & _ & U).
  exists r. split; [exact S|].
  destruct (U (or_intror (or_introl eq_refl))) as (D & C & _). now split.
Defined.

Lemma status_survives_count_failure_witness :
  exists r,
    get_system_status (Raise (OtherError (utf8 "locked")))
      (Sample.backend (Ok None)) = StatusReported r /\
    status r = operational /\ document_count r = (-1)%Z.
Proof.
  exact (status_survives_count_failure
           (Sample.env (Ok None) 42 Sample.no_file) (Sample.backend (Ok None))
           Sample.retriever (OtherError (utf8 "locked")) eq_refl eq_refl).
Defined.

Lemma status_fails_after_unsized_reload_witness :
  get_system_status (Ok 42)
    (reload_knowledge_scope (Sample.scope_file PyNone) (Sample.backend (Ok None))
       scope_path)
  = StatusFailed TypeError.
Proof.
  exact (proj2 (status_fails_after_unsized_reload
                  (Sample.scope_file PyNone) (Sample.backend (Ok None)) scope_path
                  [(scope_key, PyNone)] PyNone TypeError (Ok 42)
                  eq_refl eq_refl eq_refl)).
Defined.

Lemma test_connection_report_witness :
  test_connection Sample.degraded []
  = (Ok true, [CallMain (utf8 "Test di connessione.")]).
Proof.
  exact (proj1 (proj2 (proj2 (test_connection_report Sample.degraded [])))
           Sample.main (utf8 "Risposta.") eq_refl eq_refl eq_refl).
Defined.

Lemma reload_reaches_next_refusal_witness :
  Sample.get_response
    (reload_knowledge_scope
       (Sample.scope_file (PyList (map PyStr [utf8 "Allergeni"; utf8 "HACCP"])))
       (Sample.backend (Ok None)) scope_path)
    (utf8 "Chi ha vinto il mondiale di calcio?") []
  = (Ok {| answer := PyStr (utf8 "Risposta."); source_documents := PyList [] |},
     [ CallRouter (route_prompt (utf8 "Chi ha vinto il mondiale di calcio?"));
       CallMain
         (refusal_prompt (utf8 "Chi ha vinto il mondiale di calcio?")
            (lines [utf8 "• Allergeni"; utf8 "• HACCP"])) ]).
Proof.
  refine (reload_reaches_next_refusal (rt := Sample.runtime)
            (Sample.scope_file (PyList (map PyStr [utf8 "Allergeni"; utf8 "HACCP"])))
            (Sample.backend (Ok None)) scope_path
            [(scope_key, PyList (map PyStr [utf8 "Allergeni"; utf8 "HACCP"]))]
            [utf8 "Allergeni"; utf8 "HACCP"]
            (Sample.chain (Ok None)) (utf8 "Chi ha vinto il mondiale di calcio?") []
            eq_refl eq_refl _ eq_refl _ _ (or_introl eq_refl)).
  - discriminate.
  - vm_compute. discriminate.
  - vm_compute. reflexivity.
Defined.

Lemma reload_can_break_refusals_witness :
  Sample.get_response
    (reload_knowledge_scope (Sample.scope_file (PyInt 5))
       (Sample.backend (Ok (Some non_pertinente))) scope_path)
    (utf8 "Chi ha vinto il mondiale di calcio?") []
  = (Ok technical_error_response,
     [CallRouter (route_prompt (utf8 "Chi ha vinto il mondiale di calcio?"))]).
Proof.
  refine (reload_can_break_refusals (rt := Sample.runtime)
            (Sample.scope_file (PyInt 5))
            (Sample.backend (Ok (Some non_pertinente))) scope_path
            [(scope_key, PyInt 5)] (PyInt 5)
            (Sample.chain (Ok (Some non_pertinente)))
            (utf8 "Chi ha vinto il mondiale di calcio?") []
            eq_refl eq_refl eq_refl _ _ eq_refl _ _ (or_intror eq_refl)).
  - intros l. discriminate.
  - intros s. discriminate.
  - vm_compute. discriminate.
  - vm_compute. reflexivity.
Defined.

Lemma get_response_ignores_padding_witness :
  Sample.get_response (Sample.backend (Ok (Some conversazionale)))
    (utf8 "  Ciao, come stai?  ") []
  = Sample.get_response (Sample.backend (Ok (Some conversazionale)))
      (strip (utf8 "  Ciao, come stai?  ")) [].
Proof.
  refine (get_response_ignores_padding (rt := Sample.runtime)
            (Sample.backend (Ok (Some conversazionale)))
            (utf8 "  Ciao, come stai?  ") [] _).
  vm_compute. reflexivity.
Defined.

(** The window's own answer is used when the handler of the backend could
    not print the text of the exception. *)
Example ui_fallback_fires :
  _get_ai_response (rt := Sample.runtime)
    (Sample.backend (Ok (Some [0xD83D%N]))) (utf8 "Quali additivi sono ammessi?") []
  = (Ok ui_failure_response,
     [CallRouter (route_prompt (utf8 "Quali additivi sono ammessi?"))]).
Proof. vm_compute. reflexivity. Qed.

Lemma send_message_turn_witness :
  fst (_on_send_message (rt := Sample.runtime) (py := Sample.interpreter)
         (Sample.backend (Ok (Some conversazionale))) (utf8 "  Ciao!  ") [])
  = Ok [ Ok (SimpleMessage (PyStr (utf8 "Ciao!")) user);
         Ok (SimpleMessage (PyStr (utf8 "Risposta.")) assistant) ].
Proof.
  destruct (proj2 (send_message_turn (rt := Sample.runtime) (py := Sample.interpreter)
                     (Sample.backend (Ok (Some conversazionale)))
                     (utf8 "  Ciao!  ") []))
    as (r & t' & G & T & _).
  - vm_compute. discriminate.
  - rewrite T. cbn [fst]. vm_compute in G. injection G as <- _. reflexivity.
Defined.

Lemma citations_resolve_in_range_witness :
  1 <= 2 <= 2 /\
  exists doc,
    nth_error [Sample.nitrites; Sample.labelling] (2 - 1) = Some doc /\
    utf8 "Etichettatura chiara e leggibile." = page_content doc /\
    PyStr (utf8 "Fonte sconosciuta")
      = dict_get (metadata doc) (utf8 "source") (PyStr (utf8 "Fonte sconosciuta")).
Proof.
  refine (citations_resolve_in_range (py := Sample.interpreter)
            (utf8 "Etichetta chiara [doc-2], si veda anche [doc-9].")
            [Sample.nitrites; Sample.labelling]
            [ InsertText (utf8 "Etichetta chiara ");
              CitationButton 2 (utf8 "Etichettatura chiara e leggibile.")
                (PyStr (utf8 "Fonte sconosciuta"));
              InsertText (utf8 ", si veda anche ");
              InsertText (utf8 "[doc-9]");
              InsertText (utf8 ".") ]
            _ 2 _ _ _).
  - vm_compute. reflexivity.
  - right. left. reflexivity.
Defined.

Lemma unresolved_citations_lose_no_text_witness :
  List.concat
    (map inserted
       [ InsertText (utf8 "Si veda "); InsertText (utf8 "[doc-0]");
         InsertText (utf8 " e "); InsertText (utf8 "[doc-3]"); InsertText (utf8 ".") ])
  = utf8 "Si veda [doc-0] e [doc-3].".
Proof.
  refine (eq_trans
            (unresolved_citations_lose_no_text (py := Sample.interpreter)
               (utf8 "Si veda [doc-0] e [doc-3].")
               (PyList (map doc_to_py [Sample.nitrites; Sample.labelling]))
               _ _ _) _).
  - vm_compute. reflexivity.
  - reflexivity.
  - vm_compute. reflexivity.
Defined.

Lemma backend_label_opens_its_passage_witness :
  _create_message_with_sources (py := Sample.interpreter)
    (utf8 "Limite 150 mg/kg " ++ doc_label 1 ++ utf8 ".")
    (PyList (map doc_to_py [Sample.nitrites; Sample.labelling]))
  = Ok [ InsertText (utf8 "Limite 150 mg/kg ");
         CitationButton 1 (utf8 "  Nitriti: limite 150 mg/kg.  ")
           (PyStr (utf8 "docs/reg_1333.pdf"));
         InsertText (utf8 ".") ].
Proof.
  rewrite (backend_label_opens_its_passage (py := Sample.interpreter)
             [Sample.nitrites; Sample.labelling] 1 Sample.nitrites
             (utf8 "Limite 150 mg/kg ") (utf8 ".")).
  - vm_compute. reflexivity.
  - vm_compute. repeat constructor; discriminate.
  - apply le_n.
  - reflexivity.
  - vm_compute. reflexivity.
Defined.

Lemma created_scope_file_is_loaded_witness :
  _load_knowledge_scope
    (read_json (create_default_knowledge_scope_file WriteCompletes Sample.empty_disk))
    Sample.degraded
  = Ok (set_knowledge_scope Sample.degraded (PyList (map PyStr file_scope))).
Proof.
  exact (proj1 (proj2 (created_scope_file_is_loaded (rt := Sample.runtime)
                         Sample.empty_disk Sample.degraded eq_refl))).
Defined.

Lemma broken_scope_file_is_never_repaired_witness :
  _load_knowledge_scope
    (read_json (create_default_knowledge_scope_file WriteCompletes
                  (create_default_knowledge_scope_file (WriteBreaksOff false)
                     Sample.empty_disk)))
    Sample.degraded
  = Ok (_create_default_knowledge_scope Sample.degraded) /\
  _load_knowledge_scope
    (read_json (create_default_knowledge_scope_file WriteCompletes
                  (create_default_knowledge_scope_file (WriteBreaksOff true)
                     Sample.empty_disk)))
    Sample.degraded
  = Raise UnicodeDecodeError.
Proof.
  split.
  - exact (proj1 (proj2 (proj2 (broken_scope_file_is_never_repaired
                                  Sample.empty_disk false WriteCompletes
                                  Sample.degraded eq_refl)))).
  - exact (proj1 (proj2 (proj2 (broken_scope_file_is_never_repaired
                                  Sample.empty_disk true WriteCompletes
                                  Sample.degraded eq_refl)))).
Defined.

Lemma truncate_text_fits_witness :
  truncate_text (utf8 "Regolamento (CE) n. 1333/2008") 12 (utf8 "...")
  = utf8 "Regolamen...".
Proof.
  refine (proj1 (proj2 (proj2 (truncate_text_fits
                                 (utf8 "Regolamento (CE) n. 1333/2008") 12
                                 (utf8 "...") _)) _)).
  - vm_compute. discriminate.
  - reflexivity.
Defined.

Lemma truncate_text_idempotent_witness :
  truncate_text (truncate_text (utf8 "Regolamento (CE) n. 1333/2008") 12 (utf8 "..."))
    12 (utf8 "...")
  = truncate_text (utf8 "Regolamento (CE) n. 1333/2008") 12 (utf8 "...").
Proof.
  refine (truncate_text_idempotent (utf8 "Regolamento (CE) n. 1333/2008") 12
            (utf8 "...") _).
  vm_compute. discriminate.
Defined.

Lemma truncate_text_overruns_short_limit_witness :
  truncate_text (utf8 "Regolamento") 2 (utf8 "...") = utf8 "Regolament..." /\
  (2 < Z.of_nat (List.length (truncate_text (utf8 "Regolamento") 2 (utf8 "..."))))%Z.
Proof.
  refine (truncate_text_overruns_short_limit (utf8 "Regolamento") 2 (utf8 "...") _ _);
    reflexivity.
Defined.

Lemma ingest_builds_nothing_without_documents_witness :
  create_vector_db Sample.ingest_env_without_pdfs = (Ok tt, [RemovedIndex]).
Proof.
  exact (proj2 (proj2 (ingest_builds_nothing_without_documents
                         Sample.ingest_env_without_pdfs) eq_refl eq_refl)
           eq_refl eq_refl).
Defined.

Lemma stored_chunks_keep_their_source_witness :
  exists documents,
    ingest_load Sample.ingest_env = Ok documents /\
    Forall (from_document (ingest_split Sample.ingest_env) documents)
      (chunks_of Sample.nitrites
         [utf8 "  Nitriti:"; utf8 " limite 150 mg/kg.  "]
       ++ chunks_of Sample.labelling
            [utf8 "Etichettat"; utf8 "ura chiara e leggibile."]).
Proof.
  refine (stored_chunks_keep_their_source Sample.ingest_env
            (snd (create_vector_db Sample.ingest_env))
            (fst (create_vector_db Sample.ingest_env)) _ _ _).
  - now destruct (create_vector_db Sample.ingest_env).
  - vm_compute. right. right. right. left. reflexivity.
Defined.

Lemma text_sample_is_bounded_witness :
  full_text_sample
    ([Sample.nitrites; Sample.labelling; Sample.nitrites; Sample.labelling;
      Sample.nitrites] ++ [Sample.labelling])
  = full_text_sample
      [Sample.nitrites; Sample.labelling; Sample.nitrites; Sample.labelling;
       Sample.nitrites].
Proof.
  refine (proj2 (text_sample_is_bounded _ _) _). simpl. lia.
Defined.


(** The window's rendering of an answer with one marker in range, one
    written with a leading zero and one out of range. *)
Example rendering_of_markers :
  _create_message_with_sources (py := Sample.interpreter)
    (utf8 "Limite [doc-1], etichette [doc-02]; altro [doc-7].")
    (PyList (map doc_to_py [Sample.nitrites; Sample.labelling]))
  = Ok [ InsertText (utf8 "Limite ");
         CitationButton 1 (utf8 "  Nitriti: limite 150 mg/kg.  ")
           (PyStr (utf8 "docs/reg_1333.pdf"));
         InsertText (utf8 ", etichette ");
         CitationButton 2 (utf8 "Etichettatura chiara e leggibile.")
           (PyStr (utf8 "Fonte sconosciuta"));
         InsertText (utf8 "; altro ");
         InsertText (utf8 "[doc-7]");
         InsertText (utf8 ".") ].
Proof. vm_compute. reflexivity. Qed.

Example status_of_the_samples :
  get_system_status (Ok 42) (Sample.backend (Ok None))
  = StatusReported
      {| llm_main_available := true; llm_router_available := true;
         retriever_available := true; chain_available := true;
         document_count := 42; knowledge_scope_items := 8;
         status := operational |}.
Proof. reflexivity. Qed.
